(** * Dify AI provider: the workflow-completion language model

    A shallow embedding of the two completion models of the repository
    (the LanguageModelV1 one of [src/completion/model.ts] and its
    LanguageModelV2 sibling), of the request-body construction they share,
    of their blocking-mode reduction and of the stream transform that turns
    decoded server-sent events into stream parts.

    Conventions.
    - A decoded JSON payload is a [JSONValue]; a JavaScript object is a
      finite map from property names to values, [undefined] is [None].
    - JSON numbers are token counts here and are modelled as [Z].
    - The mutable variables captured by the stream transform
      ([workflowRunId], [taskId]) are an explicit [Accumulator] threaded
      through [transform]; [controller.enqueue] appends to the output list.
    - A [throw] is the left injection of a sum; the HTTP transport
      ([postJsonToApi]) is a function handed to the operations. *)

From Stdlib Require Import ZArith Lia.
From stdpp Require Import base option strings list gmap.

#[local] Set Warnings "-register-all".
#[local] Open Scope Z_scope.
#[local] Open Scope string_scope.
#[local] Open Scope list_scope.

(** ** JavaScript values *)

Inductive JSONValue : Type :=
| JNull
| JBool (b : bool)
| JNum (n : Z)
| JStr (s : string)
| JArr (items : list JSONValue)
| JObj (fields : gmap string JSONValue).

Inductive JsType : Type :=
| TUndefined | TObject | TBoolean | TNumber | TString.

#[global] Instance JsType_eq_dec : EqDecision JsType.
Proof. solve_decision. Defined.

Module Js.

(** [typeof v], with [None] for [undefined]; [typeof null] is "object". *)
Definition typeof (v : option JSONValue) : JsType :=
  match v with
  | None => TUndefined
  | Some JNull => TObject
  | Some (JBool _) => TBoolean
  | Some (JNum _) => TNumber
  | Some (JStr _) => TString
  | Some (JArr _) => TObject
  | Some (JObj _) => TObject
  end.

(** Truthiness as used by [if (v)], [!v] and [a || b]. *)
Definition truthy (v : option JSONValue) : bool :=
  match v with
  | None => false
  | Some JNull => false
  | Some (JBool b) => b
  | Some (JNum n) => negb (Z.eqb n 0)
  | Some (JStr s) => negb (String.eqb s "")
  | Some (JArr _) => true
  | Some (JObj _) => true
  end.

(** [v.k]: property read; objects only carry named properties here. *)
Definition get (k : string) (v : option JSONValue) : option JSONValue :=
  match v with
  | Some (JObj o) => o !! k
  | _ => None
  end.

(** ["k" in v], for [v] already known to be of type "object". *)
Definition has (k : string) (v : option JSONValue) : bool :=
  match v with
  | Some (JObj o) => bool_decide (is_Some (o !! k))
  | _ => false
  end.

(** Truthiness of a string ([!s], [Boolean(s)]). *)
Definition truthy_string (s : option string) : bool :=
  match s with
  | Some s => negb (String.eqb s "")
  | None => false
  end.

End Js.

(** ** Data shared by both model versions *)

(** [ParseResult<DifyStreamEvent>]: what the event-source handler hands to
    the transform for each server-sent event. *)
Inductive ParseResult : Type :=
| Success (value : gmap string JSONValue)
| Failure (error : string).

Inductive FinishReason : Type :=
| Stop | Length | ContentFilter | ToolCalls | ErrorReason | Other | Unknown.

(** [providerMetadata.difyWorkflowData] *)
Record DifyWorkflowData : Type := {
  md_workflowRunId : option JSONValue;
  md_taskId : option JSONValue
}.

(** The two variables captured by the transform closure. *)
Record Accumulator : Type := {
  workflowRunId : option JSONValue;
  taskId : option JSONValue
}.

Definition initial : Accumulator :=
  {| workflowRunId := None; taskId := None |}.

(** [if (data.workflow_run_id) workflowRunId = data.workflow_run_id;
     if (data.task_id) taskId = data.task_id;] *)
Definition storeIds (data : gmap string JSONValue) (acc : Accumulator)
  : Accumulator :=
  {| workflowRunId :=
       if Js.truthy (data !! "workflow_run_id")
       then data !! "workflow_run_id" else workflowRunId acc;
     taskId :=
       if Js.truthy (data !! "task_id")
       then data !! "task_id" else taskId acc |}.

(** The type guard of the [workflow_finished] branch and the assignment it
    protects: [let totalTokens = 0; if (guard) totalTokens =
    data.data.total_tokens]. *)
Definition totalTokensOf (data : gmap string JSONValue) : Z :=
  let d := data !! "data" in
  if bool_decide (is_Some d)
     && Js.truthy d
     && bool_decide (Js.typeof d = TObject)
     && Js.has "total_tokens" d
     && bool_decide (Js.typeof (Js.get "total_tokens" d) = TNumber)
  then match Js.get "total_tokens" d with
       | Some (JNum n) => n
       | _ => 0
       end
  else 0.

(** The type guard of the [text_chunk] branch. *)
Definition textOf (data : gmap string JSONValue) : option string :=
  let d := data !! "data" in
  if bool_decide (is_Some d)
     && Js.truthy d
     && bool_decide (Js.typeof d = TObject)
     && Js.has "text" d
     && bool_decide (Js.typeof (Js.get "text" d) = TString)
  then match Js.get "text" d with
       | Some (JStr s) => Some s
       | _ => None
       end
  else None.

(** The type guard of the [workflow_started] branch. *)
Definition runIdOf (data : gmap string JSONValue) : option string :=
  if bool_decide (is_Some (data !! "workflow_run_id"))
     && bool_decide (Js.typeof (data !! "workflow_run_id") = TString)
  then match data !! "workflow_run_id" with
       | Some (JStr s) => Some s
       | _ => None
       end
  else None.

(** [data.event], when it is a string. *)
Definition eventOf (data : gmap string JSONValue) : string :=
  match data !! "event" with
  | Some (JStr e) => e
  | _ => ""
  end.

(** ** Requests *)

(** A part of a message's content array. *)
Inductive Part : Type :=
| PartString (s : string)
| PartObject (type : string) (text : option string).

Inductive Content : Type :=
| ContentString (s : string)
| ContentArray (parts : list Part).

Record Message : Type := {
  role : string;
  content : Content
}.

Record CallOptions : Type := {
  prompt : option (list Message);
  messages : option (list Message);
  headers : option (gmap string string)
}.

Record DifyCompletionSettings : Type := {
  apiKey : option string;
  responseMode : option string;
  inputs : option (gmap string JSONValue)
}.

(** What the operations throw: the provider's [APICallError], the
    [LoadAPIKeyError] of the key lookup behind the configured headers, and
    any other error, by name and message (an aborted request, say). *)
Inductive Exception : Type :=
| APICallError (message : string)
| LoadAPIKeyError
| OtherError (name message : string).

(** [configHeaders] is the outcome of calling [config.headers()]: the
    closure the provider installs looks the API key up and throws when there
    is none. *)
Record ModelConfig : Type := {
  provider : string;
  baseURL : string;
  configHeaders : Exception + gmap string string
}.

Record Model : Type := {
  modelId : string;
  settings : DifyCompletionSettings;
  config : ModelConfig;
  completionEndpoint : string
}.

(** The constructor, with its default for the response mode. *)
Definition construct (id : string) (s : DifyCompletionSettings)
    (c : ModelConfig) : Model :=
  {| modelId := id;
     settings :=
       if negb (Js.truthy_string (responseMode s))
       then {| apiKey := apiKey s; responseMode := Some "streaming";
               inputs := inputs s |}
       else s;
     config := c;
     completionEndpoint := baseURL c +:+ "/workflows/run" |}.

Record RequestBody : Type := {
  rb_inputs : gmap string JSONValue;
  response_mode : option string;
  user : string
}.

(** What [postJsonToApi] came to for one request:
    - [HttpFailed statusText errorBody]: a non-success status; [errorBody]
      is the message of the error body when [errorResponseSchema] decodes
      it, and [None] when the body is empty or does not decode;
    - [HttpOk value]: a success status whose body the successful-response
      handler accepted, with the value it decoded;
    - [HttpThrows e]: the call threw [e]: the successful-response handler
      refused the response, there was no connection, the request was
      aborted. *)
Inductive HttpResponse (A : Type) : Type :=
| HttpFailed (statusText : string) (errorBody : option string)
| HttpOk (value : A)
| HttpThrows (e : Exception).
Arguments HttpFailed {A} statusText errorBody.
Arguments HttpOk {A} value.
Arguments HttpThrows {A} e.

(** [errorToMessage] of [difyFailedResponseHandler]. *)
Definition errorToMessage (message : string) : string :=
  "Dify API error: " +:+ message.

(** [difyFailedResponseHandler], the JSON error handler built around
    [errorToMessage]: the error of a decoded body carries
    [errorToMessage], the error of an empty or undecodable body the bare
    status text. *)
Definition difyFailedResponseHandler (statusText : string)
    (errorBody : option string) : Exception :=
  match errorBody with
  | Some message => APICallError (errorToMessage message)
  | None => APICallError statusText
  end.

(** [createJsonResponseHandler(schema)] on the body of a success response
    ([None] for a body that is not JSON): the decoded value, or the
    API-call error it throws for a body that is not of the schema. *)
Definition createJsonResponseHandler {A} (schema : JSONValue -> option A)
    (responseBody : option JSONValue) : HttpResponse A :=
  match responseBody ≫= schema with
  | Some value => HttpOk value
  | None => HttpThrows (APICallError "Invalid JSON response")
  end.

(** [combineHeaders(a, b)]: later entries win. *)
Definition combineHeaders (a : gmap string string)
    (b : option (gmap string string)) : gmap string string :=
  default ∅ b ∪ a.

(** [const userId = options.headers?.["user-id"] ?? "you_should_pass_user-id"] *)
Definition userIdOf (o : CallOptions) : string :=
  default "you_should_pass_user-id" (headers o ≫= (.!! "user-id")).

(** [const { "user-id": _, ...cleanHeaders } = options.headers || {};
     options.headers = cleanHeaders;] *)
Definition cleanHeaders (o : CallOptions) : CallOptions :=
  {| prompt := prompt o;
     messages := messages o;
     headers := Some (delete "user-id" (default ∅ (headers o))) |}.

(** [{ inputs: { query, ...this.settings.inputs },
       response_mode: this.settings.responseMode, user: userId }] *)
Definition buildBody (m : Model) (query : string) (o : CallOptions)
  : RequestBody :=
  {| rb_inputs := default ∅ (inputs (settings m)) ∪ {[ "query" := JStr query ]};
     response_mode := responseMode (settings m);
     user := userIdOf o |}.

(** [.filter(Boolean).join(" ")] over the mapped parts. *)
Definition joinTruthy (xs : list (option string)) : string :=
  String.concat " "
    (omap (fun x => if Js.truthy_string x then x else None) xs).

(** The decoded blocking response, by [workflowCompletionResponseSchema];
    [M] is what the schema in force declares for [metadata]. *)
Record ResponseData : Type := {
  rd_id : string;
  workflow_id : string;
  outputs : option (gmap string JSONValue)
}.

Record MetadataUsage : Type := {
  completion_tokens : Z;
  prompt_tokens : Z;
  total_tokens : Z
}.

Record CompletionResponse (M : Type) : Type := {
  task_id : string;
  workflow_run_id : option string;
  data : ResponseData;
  metadata : M
}.
Arguments task_id {M} _.
Arguments workflow_run_id {M} _.
Arguments data {M} _.
Arguments metadata {M} _.

(** [data.outputs?.result || ""] *)
Definition resultText {M} (r : CompletionResponse M) : JSONValue :=
  let v := outputs (data r) ≫= (.!! "result") in
  if Js.truthy v then default (JStr "") v else JStr "".

(** [workflow_run_id as JSONValue] *)
Definition jsonOfString (s : option string) : option JSONValue :=
  JStr <$> s.

(** [data.workflow_run_id || this.generateId()] *)
Definition responseId {M} (r : CompletionResponse M) (generated : string)
  : string :=
  if Js.truthy_string (workflow_run_id r)
  then default generated (workflow_run_id r) else generated.

(** ** The response schemas *)

(** The schema combinators in use: [z.string()], [z.number()],
    [z.record(z.string(), z.any())] and [.optional()]; an object schema
    reads the keys it declares and drops the others. *)
Module Zod.

Definition zString (v : option JSONValue) : option string :=
  match v with
  | Some (JStr s) => Some s
  | _ => None
  end.

Definition zNumber (v : option JSONValue) : option Z :=
  match v with
  | Some (JNum n) => Some n
  | _ => None
  end.

Definition zRecord (v : option JSONValue) : option (gmap string JSONValue) :=
  match v with
  | Some (JObj o) => Some o
  | _ => None
  end.

Definition zOptional {A} (schema : option JSONValue -> option A)
    (v : option JSONValue) : option (option A) :=
  match v with
  | None => Some None
  | Some _ => Some <$> schema v
  end.

(** The [data] object both response schemas declare. *)
Definition responseData (v : option JSONValue) : option ResponseData :=
  match v with
  | Some (JObj _) =>
      id ← zString (Js.get "id" v);
      wid ← zString (Js.get "workflow_id" v);
      outs ← zOptional zRecord (Js.get "outputs" v);
      Some {| rd_id := id; workflow_id := wid; outputs := outs |}
  | _ => None
  end.

End Zod.

(** [src/completion/schema.ts]: the response schema with a required
    [metadata.usage]. *)
Module Schema.

Definition usage (v : option JSONValue) : option MetadataUsage :=
  match v with
  | Some (JObj _) =>
      c ← Zod.zNumber (Js.get "completion_tokens" v);
      p ← Zod.zNumber (Js.get "prompt_tokens" v);
      t ← Zod.zNumber (Js.get "total_tokens" v);
      Some {| completion_tokens := c; prompt_tokens := p; total_tokens := t |}
  | _ => None
  end.

Definition metadataSchema (v : option JSONValue) : option MetadataUsage :=
  match v with
  | Some (JObj _) => usage (Js.get "usage" v)
  | _ => None
  end.

Definition workflowCompletionResponseSchema (v : JSONValue)
  : option (CompletionResponse MetadataUsage) :=
  match v with
  | JObj _ =>
      task ← Zod.zString (Js.get "task_id" (Some v));
      run ← Zod.zOptional Zod.zString (Js.get "workflow_run_id" (Some v));
      d ← Zod.responseData (Js.get "data" (Some v));
      md ← metadataSchema (Js.get "metadata" (Some v));
      Some {| task_id := task; workflow_run_id := run; data := d;
              metadata := md |}
  | _ => None
  end.

End Schema.

(** The response schema without [metadata]: what it decodes carries no
    usage object, whatever the body held. *)
Module PlainSchema.

Definition workflowCompletionResponseSchema (v : JSONValue)
  : option (CompletionResponse unit) :=
  match v with
  | JObj _ =>
      task ← Zod.zString (Js.get "task_id" (Some v));
      run ← Zod.zOptional Zod.zString (Js.get "workflow_run_id" (Some v));
      d ← Zod.responseData (Js.get "data" (Some v));
      Some {| task_id := task; workflow_run_id := run; data := d;
              metadata := tt |}
  | _ => None
  end.

End PlainSchema.

(** ** The LanguageModelV1 completion model ([src/completion/model.ts]) *)

Module V1.

Record Usage : Type := {
  promptTokens : Z;
  completionTokens : Z
}.

Inductive StreamPart : Type :=
| TextDelta (textDelta : string)
| ResponseMetadata (id : string)
| Finish (finishReason : FinishReason)
         (providerMetadata : DifyWorkflowData) (usage : Usage)
| Error (error : string).

(** [Array.isArray(content) && content.some(part =>
      typeof part !== "string" && part.type === "image")] *)
Definition hasAttachments (c : Content) : bool :=
  match c with
  | ContentString _ => false
  | ContentArray parts =>
      existsb (fun part =>
                 match part with
                 | PartString _ => false
                 | PartObject type _ => String.eqb type "image"
                 end) parts
  end.

(** The query extracted from the latest message. *)
Definition queryOf (c : Content) : string :=
  match c with
  | ContentString s => s
  | ContentArray parts =>
      joinTruthy
        (map (fun part =>
                match part with
                | PartString s => Some s
                | PartObject type text =>
                    if String.eqb type "text" then text else Some ""
                end) parts)
  end.

(** [getRequestBody]; the second component is [options] after the
    assignment to [options.headers]. *)
Definition getRequestBody (m : Model) (o : CallOptions)
  : Exception + (RequestBody * CallOptions) :=
  match (match messages o with Some ms => Some ms | None => prompt o end) with
  | None => inl (APICallError "No messages provided")
  | Some ms =>
      match last ms with
      | None => inl (APICallError "No messages provided")
      | Some latestMessage =>
          if negb (String.eqb (role latestMessage) "user")
          then inl (APICallError "The last message must be a user message")
          else if hasAttachments (content latestMessage)
          then inl (APICallError
                      "Dify provider does not currently support image attachments")
          else inr (buildBody m (queryOf (content latestMessage)) o,
                    cleanHeaders o)
      end
  end.

(** The result of [doGenerate]; [rawCall], [rawResponse], [toolCalls]
    (always empty) and the timestamp are left out. *)
Record GenerateResult : Type := {
  text : JSONValue;
  finishReason : FinishReason;
  usage : Usage;
  providerMetadata : DifyWorkflowData;
  requestBody : RequestBody;
  response_id : string
}.

(** The blocking-mode reduction: the object literal [doGenerate] returns
    for a decoded response. It reads nothing of [metadata], so it is the
    same whatever the response schema in force declares there ([M]). *)
Definition reduce {M} (body : RequestBody) (generated : string)
    (r : CompletionResponse M) : GenerateResult :=
  {| text := resultText r;
     finishReason := Stop;
     usage := {| promptTokens := 0; completionTokens := 0 |};
     providerMetadata :=
       {| md_workflowRunId := jsonOfString (workflow_run_id r);
          md_taskId := Some (JStr (task_id r)) |};
     requestBody := body;
     response_id := responseId r generated |}.

Definition doGenerate {M} (m : Model)
    (post : RequestBody -> gmap string string ->
            HttpResponse (CompletionResponse M))
    (generated : string) (o : CallOptions) : Exception + GenerateResult :=
  match getRequestBody m o with
  | inl e => inl e
  | inr (body, o') =>
      match configHeaders (config m) with
      | inl e => inl e
      | inr configured =>
          match post body (combineHeaders configured (headers o')) with
          | HttpFailed statusText errorBody =>
              inl (difyFailedResponseHandler statusText errorBody)
          | HttpOk r => inr (reduce body generated r)
          | HttpThrows e => inl e
          end
      end
  end.

(** [transform(chunk, controller)]: the parts enqueued for one chunk and
    the captured variables afterwards. *)
Definition transform (chunk : ParseResult) (acc : Accumulator)
  : list StreamPart * Accumulator :=
  match chunk with
  | Failure error => ([Error error], acc)
  | Success data =>
      let acc' := storeIds data acc in
      let parts :=
        if String.eqb (eventOf data) "workflow_finished" then
          [Finish Stop
             {| md_workflowRunId := workflowRunId acc';
                md_taskId := taskId acc' |}
             {| promptTokens := 0;
                completionTokens := totalTokensOf data |}]
        else if String.eqb (eventOf data) "text_chunk" then
          match textOf data with
          | Some t => [TextDelta t]
          | None => []
          end
        else if String.eqb (eventOf data) "workflow_started" then
          match runIdOf data with
          | Some id => [ResponseMetadata id]
          | None => []
          end
        else []
      in (parts, acc')
  end.

(** [responseStream.pipeThrough(new TransformStream({ transform }))] *)
Fixpoint pipeThrough (chunks : list ParseResult) (acc : Accumulator)
  : list StreamPart :=
  match chunks with
  | [] => []
  | chunk :: rest =>
      let '(parts, acc') := transform chunk acc in
      parts ++ pipeThrough rest acc'
  end.

(** [const body = { ...requestBody, response_mode: "streaming" }] *)
Definition streamingBody (b : RequestBody) : RequestBody :=
  {| rb_inputs := rb_inputs b;
     response_mode := Some "streaming";
     user := user b |}.

Record StreamResult : Type := {
  stream : list StreamPart;
  sr_requestBody : RequestBody
}.

Definition doStream (m : Model)
    (post : RequestBody -> gmap string string ->
            HttpResponse (list ParseResult))
    (o : CallOptions) : Exception + StreamResult :=
  match getRequestBody m o with
  | inl e => inl e
  | inr (requestBody, o') =>
      let body := streamingBody requestBody in
      match configHeaders (config m) with
      | inl e => inl e
      | inr configured =>
          match post body (combineHeaders configured (headers o')) with
          | HttpFailed statusText errorBody =>
              inl (difyFailedResponseHandler statusText errorBody)
          | HttpOk responseStream =>
              inr {| stream := pipeThrough responseStream initial;
                     sr_requestBody := body |}
          | HttpThrows e => inl e
          end
      end
  end.

End V1.

(** ** The LanguageModelV2 completion model *)

Module V2.

Record Usage : Type := {
  inputTokens : Z;
  outputTokens : Z;
  totalTokens : Z
}.

Inductive StreamPart : Type :=
| TextStart (id : string)
| TextDelta (id : string) (delta : string)
| TextEnd (id : string)
| ResponseMetadata (id : string)
| Finish (finishReason : FinishReason)
         (providerMetadata : DifyWorkflowData) (usage : Usage)
| Error (error : string).

(** [LanguageModelV2Content], text entries only. *)
Inductive ContentPart : Type :=
| TextContent (text : JSONValue).

(** [content.some(part => typeof part !== "string" && part !== null &&
      typeof part === "object" && "type" in part && part.type === "file")] *)
Definition hasAttachments (c : Content) : bool :=
  match c with
  | ContentString _ => false
  | ContentArray parts =>
      existsb (fun part =>
                 match part with
                 | PartString _ => false
                 | PartObject type _ => String.eqb type "file"
                 end) parts
  end.

Definition queryOf (c : Content) : string :=
  match c with
  | ContentString s => s
  | ContentArray parts =>
      joinTruthy
        (map (fun part =>
                match part with
                | PartString s => Some s
                | PartObject type text =>
                    if String.eqb type "text" && bool_decide (is_Some text)
                    then text else Some ""
                end) parts)
  end.

Definition getRequestBody (m : Model) (o : CallOptions)
  : Exception + (RequestBody * CallOptions) :=
  match (match prompt o with Some ms => Some ms | None => messages o end) with
  | None => inl (APICallError "No messages provided")
  | Some ms =>
      match last ms with
      | None => inl (APICallError "No messages provided")
      | Some latestMessage =>
          if negb (String.eqb (role latestMessage) "user")
          then inl (APICallError "The last message must be a user message")
          else if hasAttachments (content latestMessage)
          then inl (APICallError
                      "Dify provider does not currently support file attachments")
          else inr (buildBody m (queryOf (content latestMessage)) o,
                    cleanHeaders o)
      end
  end.

(** The result of [doGenerate]; [warnings] (always empty), the response
    headers and the timestamp are left out. *)
Record GenerateResult : Type := {
  content : list ContentPart;
  finishReason : FinishReason;
  usage : Usage;
  providerMetadata : DifyWorkflowData;
  requestBody : RequestBody;
  response_id : string
}.

(** The blocking-mode reduction. [typedData.metadata.usage] is read
    without a guard: the response type declares it. *)
Definition reduce (body : RequestBody) (generated : string)
    (typedData : CompletionResponse MetadataUsage) : GenerateResult :=
  let textContent := resultText typedData in
  {| content :=
       if Js.truthy (Some textContent) then [TextContent textContent] else [];
     finishReason := Stop;
     usage :=
       {| inputTokens := prompt_tokens (metadata typedData);
          outputTokens := completion_tokens (metadata typedData);
          totalTokens := total_tokens (metadata typedData) |};
     providerMetadata :=
       {| md_workflowRunId := jsonOfString (workflow_run_id typedData);
          md_taskId := Some (JStr (task_id typedData)) |};
     requestBody := body;
     response_id := responseId typedData generated |}.

Definition doGenerate (m : Model)
    (post : RequestBody -> gmap string string ->
            HttpResponse (CompletionResponse MetadataUsage))
    (generated : string) (o : CallOptions) : Exception + GenerateResult :=
  match getRequestBody m o with
  | inl e => inl e
  | inr (body, o') =>
      match configHeaders (config m) with
      | inl e => inl e
      | inr configured =>
          match post body (combineHeaders configured (headers o')) with
          | HttpFailed statusText errorBody =>
              inl (difyFailedResponseHandler statusText errorBody)
          | HttpOk r => inr (reduce body generated r)
          | HttpThrows e => inl e
          end
      end
  end.

Section Stream.

(** [const msgId = generateId()], once per [doStream]. *)
Variable msgId : string.

Definition transform (chunk : ParseResult) (acc : Accumulator)
  : list StreamPart * Accumulator :=
  match chunk with
  | Failure error => ([Error error], acc)
  | Success data =>
      let acc' := storeIds data acc in
      let parts :=
        if String.eqb (eventOf data) "workflow_finished" then
          [TextEnd msgId;
           Finish Stop
             {| md_workflowRunId := workflowRunId acc';
                md_taskId := taskId acc' |}
             {| inputTokens := 0;
                outputTokens := totalTokensOf data;
                totalTokens := totalTokensOf data |}]
        else if String.eqb (eventOf data) "text_chunk" then
          match textOf data with
          | Some t => [TextDelta msgId t]
          | None => []
          end
        else if String.eqb (eventOf data) "workflow_started" then
          match runIdOf data with
          | Some id => [ResponseMetadata id; TextStart msgId]
          | None => []
          end
        else []
      in (parts, acc')
  end.

Fixpoint pipeThrough (chunks : list ParseResult) (acc : Accumulator)
  : list StreamPart :=
  match chunks with
  | [] => []
  | chunk :: rest =>
      let '(parts, acc') := transform chunk acc in
      parts ++ pipeThrough rest acc'
  end.

End Stream.

Definition streamingBody (b : RequestBody) : RequestBody :=
  {| rb_inputs := rb_inputs b;
     response_mode := Some "streaming";
     user := user b |}.

Record StreamResult : Type := {
  stream : list StreamPart;
  sr_requestBody : RequestBody
}.

Definition doStream (m : Model)
    (post : RequestBody -> gmap string string ->
            HttpResponse (list ParseResult))
    (msgId : string) (o : CallOptions) : Exception + StreamResult :=
  match getRequestBody m o with
  | inl e => inl e
  | inr (requestBody, o') =>
      let body := streamingBody requestBody in
      match configHeaders (config m) with
      | inl e => inl e
      | inr configured =>
          match post body (combineHeaders configured (headers o')) with
          | HttpFailed statusText errorBody =>
              inl (difyFailedResponseHandler statusText errorBody)
          | HttpOk responseStream =>
              inr {| stream := pipeThrough msgId responseStream initial;
                     sr_requestBody := body |}
          | HttpThrows e => inl e
          end
      end
  end.

End V2.

(** ** The chat model's terminal events *)

Module Chat.

(** Modelled from the spec: the [finish] part the chat model's stream
    transform emits for a terminal event. The transform itself
    ([dify-chat-language-model.ts]) is not among the sources, its test
    file is. The spec gives [message_end] the same finish shape as
    [workflow_finished] (finish reason "stop", the identifiers of the
    accumulator after this event), and the two [message_end] fixtures of
    the test file settle where its usage comes from: the nested
    [data.total_tokens] when it is a number (50 in the fixture that
    carries both fields), and 0 output tokens when the event has no such
    field (the fixture that carries only [metadata.usage] =
    {10, 25, 35} expects [outputTokens] 0). *)
Definition finishFor (data : gmap string JSONValue) (acc : Accumulator)
  : option V2.StreamPart :=
  if String.eqb (eventOf data) "workflow_finished"
     || String.eqb (eventOf data) "message_end"
  then
    let acc' := storeIds data acc in
    Some (V2.Finish Stop
            {| md_workflowRunId := workflowRunId acc';
               md_taskId := taskId acc' |}
            {| V2.inputTokens := 0;
               V2.outputTokens := totalTokensOf data;
               V2.totalTokens := totalTokensOf data |})
  else None.

(** [usage.outputTokens] of a finish part, as the tests read it. *)
Definition outputTokensOf (part : option V2.StreamPart) : option Z :=
  match part with
  | Some (V2.Finish _ _ usage) => Some (V2.outputTokens usage)
  | _ => None
  end.

(** [metadata.usage] of a [message_end] event, when it is an object whose
    three counters are numbers. *)
Definition metadataUsageOf (data : gmap string JSONValue)
  : option MetadataUsage :=
  let u := Js.get "usage" (data !! "metadata") in
  match Js.get "prompt_tokens" u, Js.get "completion_tokens" u,
        Js.get "total_tokens" u with
  | Some (JNum p), Some (JNum c), Some (JNum t) =>
      Some {| completion_tokens := c; prompt_tokens := p; total_tokens := t |}
  | _, _, _ => None
  end.

End Chat.

(** ** Observations on streams *)

(** The nested total as the prose has it: [data.total_tokens] when present
    and numeric, 0 otherwise. *)
Definition nestedTotal (data : gmap string JSONValue) : Z :=
  match data !! "data" with
  | Some (JObj d) =>
      match d !! "total_tokens" with
      | Some (JNum n) => n
      | _ => 0
      end
  | _ => 0
  end.

(** The captured variables after a chunk, and after a run of chunks. *)
Definition accStep (chunk : ParseResult) (acc : Accumulator) : Accumulator :=
  match chunk with
  | Success data => storeIds data acc
  | Failure _ => acc
  end.

Definition accAfter (chunks : list ParseResult) (acc : Accumulator)
  : Accumulator :=
  fold_left (fun a c => accStep c a) chunks acc.

Fixpoint count {A : Type} (p : A -> bool) (l : list A) : nat :=
  match l with
  | [] => 0%nat
  | x :: l' => ((if p x then 1 else 0) + count p l')%nat
  end.

Definition isEvent (name : string) (chunk : ParseResult) : bool :=
  match chunk with
  | Success data => String.eqb (eventOf data) name
  | Failure _ => false
  end.

(** A terminal event in the sense of the prose. *)
Definition isTerminal (chunk : ParseResult) : bool :=
  isEvent "workflow_finished" chunk || isEvent "message_end" chunk.

(** A [workflow_started] event that passes the branch's type guard. *)
Definition isStartedWithRunId (chunk : ParseResult) : bool :=
  match chunk with
  | Success data =>
      String.eqb (eventOf data) "workflow_started"
      && bool_decide (is_Some (runIdOf data))
  | Failure _ => false
  end.

Definition isFinish1 (p : V1.StreamPart) : bool :=
  match p with V1.Finish _ _ _ => true | _ => false end.

Definition isFinish (p : V2.StreamPart) : bool :=
  match p with V2.Finish _ _ _ => true | _ => false end.

Definition isTextStart (p : V2.StreamPart) : bool :=
  match p with V2.TextStart _ => true | _ => false end.

Definition isTextEnd (p : V2.StreamPart) : bool :=
  match p with V2.TextEnd _ => true | _ => false end.

Definition isError (p : V2.StreamPart) : bool :=
  match p with V2.Error _ => true | _ => false end.

(** The finish reason and usage a stream ends with: those of its last
    [finish] part. *)
Definition finishOf (p : V2.StreamPart) : option (FinishReason * V2.Usage) :=
  match p with
  | V2.Finish reason _ usage => Some (reason, usage)
  | _ => None
  end.

Definition finalOf (parts : list V2.StreamPart)
  : option (FinishReason * V2.Usage) :=
  last (omap finishOf parts).

Definition finishOf1 (p : V1.StreamPart) : option (FinishReason * V1.Usage) :=
  match p with
  | V1.Finish reason _ usage => Some (reason, usage)
  | _ => None
  end.

Definition finalOf1 (parts : list V1.StreamPart)
  : option (FinishReason * V1.Usage) :=
  last (omap finishOf1 parts).


(** The messages with which [getRequestBody] throws. *)
Definition validationMessages : list string :=
  [ "No messages provided";
    "The last message must be a user message";
    "Dify provider does not currently support image attachments";
    "Dify provider does not currently support file attachments" ].

(** ** The provider factory *)

Record DifyProviderSettings : Type := {
  ps_baseURL : option string;
  ps_headers : option (gmap string string)
}.

(** [loadApiKey({ apiKey, environmentVariableName: "DIFY_API_KEY", ... })]
    of the provider utilities: the key of the settings, else the one of the
    environment, else it throws. *)
Definition loadApiKey (key env : option string) : Exception + string :=
  match key with
  | Some k => inr k
  | None =>
      match env with
      | Some k => inr k
      | None => inl LoadAPIKeyError
      end
  end.

(** [createCompletionModel(options)(modelId, settings)]; [env] is the value
    of the environment variable [DIFY_API_KEY]. *)
Definition createCompletionModel (options : DifyProviderSettings)
    (env : option string) (id : string) (s : DifyCompletionSettings) : Model :=
  construct id s
    {| provider := "dify.completion";
       baseURL :=
         if Js.truthy_string (ps_baseURL options)
         then default "https://api.dify.ai/v1" (ps_baseURL options)
         else "https://api.dify.ai/v1";
       configHeaders :=
         match loadApiKey (apiKey s) env with
         | inl e => inl e
         | inr k =>
             inr (default ∅ (ps_headers options)
                  ∪ {[ "Authorization" := "Bearer " +:+ k;
                       "Content-Type" := "application/json" ]})
         end |}.

(** An exception thrown by one of the guards of [getRequestBody]. *)
Definition validationError (e : Exception) : Prop :=
  exists msg, e = APICallError msg /\ In msg validationMessages.

(** What an operation raises, for one model and one set of call options.
    [getBody] is its [getRequestBody], [sent] what it does to the body
    before sending it, and [op] the operation as a function of the
    transport.
    - A request that fails validation raises that error, whatever the
      transport.
    - Otherwise an exception of the configured headers function is raised,
      whatever the transport.
    - Otherwise the transport's outcome for the one request decides: a
      non-success status with a decoded error body raises the API-call
      error "Dify API error: " followed by the upstream message; one with
      an empty or undecodable body raises an API-call error with the bare
      status text; an exception of the transport passes through; a success
      raises nothing. *)
Definition raisesByKind {A R : Type}
    (getBody : Model -> CallOptions -> Exception + (RequestBody * CallOptions))
    (sent : RequestBody -> RequestBody)
    (op : (RequestBody -> gmap string string -> HttpResponse A) ->
          Exception + R)
    (m : Model) (o : CallOptions) : Prop :=
  (forall e,
      getBody m o = inl e ->
      validationError e /\ forall post, op post = inl e)
  /\ (forall body o' e,
         getBody m o = inr (body, o') ->
         configHeaders (config m) = inl e ->
         forall post, op post = inl e)
  /\ (forall body o' configured post,
         getBody m o = inr (body, o') ->
         configHeaders (config m) = inr configured ->
         match post (sent body) (combineHeaders configured (headers o')) with
         | HttpFailed _ (Some message) =>
             op post = inl (APICallError ("Dify API error: " +:+ message))
         | HttpFailed statusText None =>
             op post = inl (APICallError statusText)
         | HttpThrows e => op post = inl e
         | HttpOk _ => exists res, op post = inr res
         end).

(** The shape the four operations share: build the body, call the
    configured headers function, consult the transport once, and turn its
    outcome into a result or an exception. *)
Definition operation {A R : Type}
    (getBody : Model -> CallOptions -> Exception + (RequestBody * CallOptions))
    (sent : RequestBody -> RequestBody)
    (finish : RequestBody -> A -> R) (m : Model) (o : CallOptions)
    (post : RequestBody -> gmap string string -> HttpResponse A)
  : Exception + R :=
  match getBody m o with
  | inl e => inl e
  | inr (body, o') =>
      match configHeaders (config m) with
      | inl e => inl e
      | inr configured =>
          match post (sent body) (combineHeaders configured (headers o')) with
          | HttpFailed statusText errorBody =>
              inl (difyFailedResponseHandler statusText errorBody)
          | HttpOk r => inr (finish (sent body) r)
          | HttpThrows e => inl e
          end
      end
  end.

(** ** Fixtures of the test suite *)

Module Fixtures.

Definition obj (l : list (string * JSONValue)) : JSONValue :=
  JObj (list_to_map l).

Definition usage_10_25_35 : JSONValue :=
  obj [("usage", obj [("prompt_tokens", JNum 10);
                      ("completion_tokens", JNum 25);
                      ("total_tokens", JNum 35)])].

(** [message_end] with [metadata.usage] only. *)
Definition message_end_usage_only : gmap string JSONValue :=
  list_to_map
    [("event", JStr "message_end"); ("id", JStr "msg1");
     ("metadata", usage_10_25_35);
     ("conversation_id", JStr "conv1"); ("message_id", JStr "msg1")].

(** [message_end] with both [data.total_tokens] and [metadata.usage]. *)
Definition message_end_with_data : gmap string JSONValue :=
  list_to_map
    [("event", JStr "message_end"); ("id", JStr "msg1");
     ("data", obj [("total_tokens", JNum 50)]);
     ("metadata", usage_10_25_35);
     ("conversation_id", JStr "conv1"); ("message_id", JStr "msg1")].

Definition workflow_started : gmap string JSONValue :=
  list_to_map
    [("event", JStr "workflow_started"); ("workflow_run_id", JStr "wfr1");
     ("data", obj [("id", JStr "wf1"); ("workflow_id", JStr "wfid1");
                   ("created_at", JNum 1625097600000)])].

Definition workflow_finished (tokens : Z) : gmap string JSONValue :=
  list_to_map
    [("event", JStr "workflow_finished"); ("workflow_run_id", JStr "wfr1");
     ("data", obj [("id", JStr "wf1"); ("workflow_id", JStr "wfid1");
                   ("total_tokens", JNum tokens);
                   ("created_at", JNum 1625097600000)]);
     ("conversation_id", JStr "conv1"); ("message_id", JStr "msg1")].

Definition only_message_end : list ParseResult :=
  [Success message_end_usage_only].

Definition started_twice : list ParseResult :=
  [Success workflow_started; Success workflow_started].

Definition userPrompt : list Message :=
  [{| role := "user";
      content := ContentArray [PartObject "text" (Some "Hi")] |}].

Definition options : CallOptions :=
  {| prompt := Some userPrompt; messages := None; headers := None |}.

Definition noMessages : CallOptions :=
  {| prompt := Some []; messages := None; headers := None |}.

Definition config : ModelConfig :=
  {| provider := "dify.completion";
     baseURL := "https://mock.api";
     configHeaders := inr {[ "Authorization" := "Bearer test" ]} |}.

Definition noSettings : DifyCompletionSettings :=
  {| apiKey := None; responseMode := None; inputs := None |}.


(** A transport that answers every request with the same response. *)
Definition answering {A} (r : HttpResponse A)
  : RequestBody -> gmap string string -> HttpResponse A :=
  fun _ _ => r.

Definition body : RequestBody :=
  {| rb_inputs := {[ "query" := JStr "Hi" ]};
     response_mode := Some "streaming";
     user := "you_should_pass_user-id" |}.

Definition badRequest {A} : HttpResponse A :=
  HttpFailed "Bad Request" (Some "Bad Request: Invalid input parameters").

Definition usage_5_7_12 : MetadataUsage :=
  {| completion_tokens := 7; prompt_tokens := 5; total_tokens := 12 |}.

Definition response {M} (m : M) : CompletionResponse M :=
  {| task_id := "task1";
     workflow_run_id := Some "wfr1";
     data := {| rd_id := "wf1"; workflow_id := "wfid1";
                outputs := Some {[ "result" := JStr "Hello world" ]} |};
     metadata := m |}.

End Fixtures.

(** ** Further observations *)

(** The LanguageModelV1 reading of a LanguageModelV2 part: the span markers
    have no counterpart, a delta loses its id and the usage its total. *)
Definition toV1 (p : V2.StreamPart) : option V1.StreamPart :=
  match p with
  | V2.TextStart _ => None
  | V2.TextEnd _ => None
  | V2.TextDelta _ delta => Some (V1.TextDelta delta)
  | V2.ResponseMetadata id => Some (V1.ResponseMetadata id)
  | V2.Finish reason md usage =>
      Some (V1.Finish reason md
              {| V1.promptTokens := V2.inputTokens usage;
                 V1.completionTokens := V2.outputTokens usage |})
  | V2.Error error => Some (V1.Error error)
  end.

(** The delta of a [text-delta] part. *)
Definition deltaOf (p : V2.StreamPart) : option string :=
  match p with
  | V2.TextDelta _ delta => Some delta
  | _ => None
  end.

(** The nested text as the prose has it: [data.text] when [data] is an
    object that has a string under [text]. *)
Definition nestedText (data : gmap string JSONValue) : option string :=
  match data !! "data" with
  | Some (JObj d) =>
      match d !! "text" with
      | Some (JStr s) => Some s
      | _ => None
      end
  | _ => None
  end.

(** The [data.text] of a successfully decoded [text_chunk] event. *)
Definition textChunkOf (chunk : ParseResult) : option string :=
  match chunk with
  | Success data =>
      if String.eqb (eventOf data) "text_chunk" then nestedText data
      else None
  | Failure _ => None
  end.

Definition isFailure (chunk : ParseResult) : bool :=
  match chunk with
  | Failure _ => true
  | Success _ => false
  end.

(** The value a chunk carries under [key], when it is truthy. *)
Definition truthyId (key : string) (chunk : ParseResult)
  : option JSONValue :=
  match chunk with
  | Success data => if Js.truthy (data !! key) then data !! key else None
  | Failure _ => None
  end.

(** The last truthy value the chunks carry under [key]. *)
Definition lastTruthy (key : string) (chunks : list ParseResult)
  : option JSONValue :=
  last (omap (truthyId key) chunks).

(** An event of a kind the switch has no case for, carrying no truthy
    [workflow_run_id] or [task_id]. *)
Definition isInert (chunk : ParseResult) : bool :=
  match chunk with
  | Success data =>
      negb (String.eqb (eventOf data) "workflow_finished")
      && negb (String.eqb (eventOf data) "text_chunk")
      && negb (String.eqb (eventOf data) "workflow_started")
      && negb (Js.truthy (data !! "workflow_run_id"))
      && negb (Js.truthy (data !! "task_id"))
  | Failure _ => false
  end.

(** A content part that adds nothing to the query: an empty string, an
    object that is not of type "text", or a text object without text. *)
Definition isBlank (part : Part) : bool :=
  match part with
  | PartString s => String.eqb s ""
  | PartObject type text =>
      negb (String.eqb type "text") || negb (Js.truthy_string text)
  end.

(** The call options with [prompt] replaced. *)
Definition withPrompt (o : CallOptions) (ms : list Message) : CallOptions :=
  {| prompt := Some ms; messages := messages o; headers := headers o |}.

(** The request body of a [getRequestBody] outcome. *)
Definition bodyOf (r : Exception + (RequestBody * CallOptions))
  : Exception + RequestBody :=
  match r with
  | inl e => inl e
  | inr (body, _) => inr body
  end.

(** The headers an operation hands to the transport: the call's headers
    without "user-id", over the configured ones. *)
Definition sentHeaders (configured : gmap string string) (o : CallOptions)
    (name : string) : option string :=
  if String.eqb name "user-id" then configured !! name
  else match default ∅ (headers o) !! name with
       | Some v => Some v
       | None => configured !! name
       end.

(** The headers the provider's closure builds around a key. *)
Definition providerDefaults (key : string) : gmap string string :=
  {[ "Authorization" := "Bearer " +:+ key;
     "Content-Type" := "application/json" ]}.

(** A [workflow_finished] event whose [workflow_run_id] is empty. *)
Definition finished_with_empty_run_id : gmap string JSONValue :=
  <["workflow_run_id" := JStr ""]> (Fixtures.workflow_finished 15).

(** Settings whose inputs name a workflow variable and the query. *)
Definition settingsWithInputs : DifyCompletionSettings :=
  {| apiKey := Some "key";
     responseMode := Some "blocking";
     inputs := Some {[ "lang" := JStr "en"; "query" := JStr "fixed" ]} |}.

(** Call options with a custom header and a user id. *)
Definition optionsWithHeaders : CallOptions :=
  {| prompt := Some Fixtures.userPrompt;
     messages := None;
     headers := Some {[ "Custom-Header" := "custom-value";
                        "user-id" := "custom-user-123" ]} |}.

(** A transport that answers only requests carrying the custom header and
    no user id. *)
Definition expectingHeaders {A} (r : A)
  : RequestBody -> gmap string string -> HttpResponse A :=
  fun _ h =>
    if bool_decide (h !! "Custom-Header" = Some "custom-value"
                    /\ h !! "user-id" = None)
    then HttpOk r else HttpFailed "Bad Request" (Some "unexpected headers").

(** A blocking response whose [workflow_run_id] is the empty string. *)
Definition responseWithEmptyRunId : CompletionResponse MetadataUsage :=
  {| task_id := "task1";
     workflow_run_id := Some "";
     data := {| rd_id := "wf1"; workflow_id := "wfid1"; outputs := None |};
     metadata := Fixtures.usage_5_7_12 |}.

(** A provider configuration with headers of its own. *)
Definition providerSettings : DifyProviderSettings :=
  {| ps_baseURL := Some "";
     ps_headers := Some {[ "Authorization" := "Custom auth";
                           "X-Trace" := "on" ]} |}.

(** The body of a blocking response with a usage object, and the same body
    without its [metadata]. *)
Definition blockingBodyWithoutUsage : gmap string JSONValue :=
  list_to_map
    [("task_id", JStr "task1"); ("workflow_run_id", JStr "wfr1");
     ("data", Fixtures.obj [("id", JStr "wf1"); ("workflow_id", JStr "wfid1");
                            ("outputs",
                             Fixtures.obj [("result", JStr "Hello world")])])].



(** A transport that answers a success status with the given body, decoded
    by the JSON handler of the given schema. *)
Definition answeringJson {A} (schema : JSONValue -> option A)
    (responseBody : gmap string JSONValue)
  : RequestBody -> gmap string string -> HttpResponse A :=
  fun _ _ => createJsonResponseHandler schema (Some (JObj responseBody)).


(** A stream with text chunks, an empty one among them, and a [message]
    event between them. *)
Definition textChunk (text : JSONValue) : ParseResult :=
  Success (list_to_map [("event", JStr "text_chunk");
                        ("data", Fixtures.obj [("text", text)])]).

Definition textChunks : list ParseResult :=
  [textChunk (JStr "Hel"); textChunk (JStr "");
   Success (list_to_map [("event", JStr "message"); ("answer", JStr "x")]);
   textChunk (JNum 7); textChunk (JStr "lo")].

(** * Properties *)

(** ** Helper lemmas *)

Lemma count_app {A} (p : A -> bool) (l1 l2 : list A) :
  count p (l1 ++ l2) = (count p l1 + count p l2)%nat.
Proof.
  induction l1 as [|x l1 IH]; simpl; [reflexivity|].
  rewrite IH. lia.
Qed.

(** The guard of the [workflow_finished] branch selects exactly the nested
    numeric total. *)
Lemma totalTokensOf_nestedTotal (data : gmap string JSONValue) :
  totalTokensOf data = nestedTotal data.
Proof.
  unfold totalTokensOf, nestedTotal.
  destruct (data !! "data") as [[| b | n | s | items | d]|]; simpl;
    try reflexivity.
  - destruct b; reflexivity.
  - destruct (Z.eqb n 0); reflexivity.
  - destruct (String.eqb s ""); reflexivity.
  - destruct (d !! "total_tokens") as [[]|]; simpl; try reflexivity.
    all: rewrite ?andb_false_r; try reflexivity.
    all: match goal with
         | |- (if ?b then _ else _) = _ => destruct b; reflexivity
         end.
Qed.

Lemma runIdOf_Some (data : gmap string JSONValue) (id : string) :
  runIdOf data = Some id <-> data !! "workflow_run_id" = Some (JStr id).
Proof.
  unfold runIdOf.
  destruct (data !! "workflow_run_id") as [[]|]; simpl; split;
    intros H; try discriminate H; try (injection H as ->); try reflexivity.
Qed.

Lemma V1_transform_acc (chunk : ParseResult) (acc : Accumulator) :
  snd (V1.transform chunk acc) = accStep chunk acc.
Proof. destruct chunk; reflexivity. Qed.

Lemma V2_transform_acc (msgId : string) (chunk : ParseResult)
    (acc : Accumulator) :
  snd (V2.transform msgId chunk acc) = accStep chunk acc.
Proof. destruct chunk; reflexivity. Qed.

Lemma V1_pipeThrough_cons chunk rest acc :
  V1.pipeThrough (chunk :: rest) acc
  = fst (V1.transform chunk acc) ++ V1.pipeThrough rest (accStep chunk acc).
Proof.
  simpl. rewrite <- V1_transform_acc.
  destruct (V1.transform chunk acc); reflexivity.
Qed.

Lemma V2_pipeThrough_cons msgId chunk rest acc :
  V2.pipeThrough msgId (chunk :: rest) acc
  = fst (V2.transform msgId chunk acc)
    ++ V2.pipeThrough msgId rest (accStep chunk acc).
Proof.
  simpl. rewrite <- (V2_transform_acc msgId).
  destruct (V2.transform msgId chunk acc); reflexivity.
Qed.

Lemma V1_pipeThrough_app pre post acc :
  V1.pipeThrough (pre ++ post) acc
  = V1.pipeThrough pre acc ++ V1.pipeThrough post (accAfter pre acc).
Proof.
  revert acc. induction pre as [|c pre IH]; intros acc; [reflexivity|].
  rewrite <- app_comm_cons, !V1_pipeThrough_cons, IH, <- app_assoc.
  reflexivity.
Qed.

Lemma V2_pipeThrough_app msgId pre post acc :
  V2.pipeThrough msgId (pre ++ post) acc
  = V2.pipeThrough msgId pre acc
    ++ V2.pipeThrough msgId post (accAfter pre acc).
Proof.
  revert acc. induction pre as [|c pre IH]; intros acc; [reflexivity|].
  rewrite <- app_comm_cons, !V2_pipeThrough_cons, IH, <- app_assoc.
  reflexivity.
Qed.

(** ** The test fixtures, replayed *)

Example started_then_finished :
  V2.pipeThrough "m"
    [Success Fixtures.workflow_started; Success (Fixtures.workflow_finished 15)]
    initial
  = [V2.ResponseMetadata "wfr1"; V2.TextStart "m"; V2.TextEnd "m";
     V2.Finish Stop
       {| md_workflowRunId := Some (JStr "wfr1"); md_taskId := None |}
       {| V2.inputTokens := 0; V2.outputTokens := 15; V2.totalTokens := 15 |}].
Proof. vm_compute. reflexivity. Qed.

Example default_user_id :
  V2.getRequestBody
    (construct "workflow" Fixtures.noSettings Fixtures.config)
    {| prompt := Some Fixtures.userPrompt; messages := None;
       headers := Some ∅ |}
  = inr ({| rb_inputs := {[ "query" := JStr "Hi" ]};
            response_mode := Some "streaming";
            user := "you_should_pass_user-id" |},
         {| prompt := Some Fixtures.userPrompt; messages := None;
            headers := Some ∅ |}).
Proof. vm_compute. reflexivity. Qed.

Example provided_user_id :
  V2.getRequestBody
    (construct "workflow" Fixtures.noSettings Fixtures.config)
    {| prompt := Some Fixtures.userPrompt; messages := None;
       headers := Some {[ "user-id" := "custom-user-123" ]} |}
  = inr ({| rb_inputs := {[ "query" := JStr "Hi" ]};
            response_mode := Some "streaming";
            user := "custom-user-123" |},
         {| prompt := Some Fixtures.userPrompt; messages := None;
            headers := Some ∅ |}).
Proof. vm_compute. reflexivity. Qed.

Example chat_message_end_usage_only :
  Chat.outputTokensOf (Chat.finishFor Fixtures.message_end_usage_only initial)
  = Some 0.
Proof. vm_compute. reflexivity. Qed.

Example chat_message_end_with_data :
  Chat.outputTokensOf (Chat.finishFor Fixtures.message_end_with_data initial)
  = Some 50.
Proof. vm_compute. reflexivity. Qed.

(** ** Decode failures *)

(** C1, as stated, fails: a chunk whose validation did not succeed makes the
    transform enqueue an [error] part, so the output for that event is not
    empty. *)
Lemma decode_failure_emits_a_part :
  fst (V2.transform "m" (Failure "not-json") initial) <> []
  /\ fst (V1.transform (Failure "not-json") initial) <> [].
Proof. split; discriminate. Qed.

(** C1, amended: for every decode failure the transform emits exactly one
    [error] part carrying the chunk's error and nothing else, and leaves the
    captured [workflowRunId] and [taskId] unchanged; inside a stream the
    failure contributes that single part between the output of the chunks
    before it and the output of the chunks after it, which are processed
    from the state the earlier chunks left. *)
Theorem decode_failure_is_one_error_part :
  forall (msgId error : string) (pre post : list ParseResult)
         (acc : Accumulator),
    V1.transform (Failure error) acc = ([V1.Error error], acc)
    /\ V2.transform msgId (Failure error) acc = ([V2.Error error], acc)
    /\ V1.pipeThrough (pre ++ Failure error :: post) acc
       = V1.pipeThrough pre acc ++ V1.Error error
           :: V1.pipeThrough post (accAfter pre acc)
    /\ V2.pipeThrough msgId (pre ++ Failure error :: post) acc
       = V2.pipeThrough msgId pre acc ++ V2.Error error
           :: V2.pipeThrough msgId post (accAfter pre acc).
Proof.
  intros msgId error pre post acc.
  split; [reflexivity|]. split; [reflexivity|]. split.
  - rewrite V1_pipeThrough_app, V1_pipeThrough_cons. reflexivity.
  - rewrite V2_pipeThrough_app, V2_pipeThrough_cons. reflexivity.
Qed.

(** ** Finish parts and terminal events *)

Lemma V1_transform_finish_count chunk acc :
  count isFinish1 (fst (V1.transform chunk acc))
  = if isEvent "workflow_finished" chunk then 1%nat else 0%nat.
Proof.
  destruct chunk as [data|error]; [|reflexivity].
  unfold V1.transform, isEvent. cbn [fst].
  destruct (String.eqb (eventOf data) "workflow_finished"); [reflexivity|].
  destruct (String.eqb (eventOf data) "text_chunk").
  { destruct (textOf data); reflexivity. }
  destruct (String.eqb (eventOf data) "workflow_started"); [|reflexivity].
  destruct (runIdOf data); reflexivity.
Qed.

Lemma V2_transform_finish_count msgId chunk acc :
  count isFinish (fst (V2.transform msgId chunk acc))
  = if isEvent "workflow_finished" chunk then 1%nat else 0%nat.
Proof.
  destruct chunk as [data|error]; [|reflexivity].
  unfold V2.transform, isEvent. cbn [fst].
  destruct (String.eqb (eventOf data) "workflow_finished"); [reflexivity|].
  destruct (String.eqb (eventOf data) "text_chunk").
  { destruct (textOf data); reflexivity. }
  destruct (String.eqb (eventOf data) "workflow_started"); [|reflexivity].
  destruct (runIdOf data); reflexivity.
Qed.

(** C2, as stated, fails: [message_end] is none of the transform's cases, so
    a stream whose only event is a [message_end] observes one terminal event
    and emits no [finish] part. *)
Lemma message_end_emits_no_finish :
  count isFinish (V2.pipeThrough "m" Fixtures.only_message_end initial)
  <> count isTerminal Fixtures.only_message_end
  /\ count isFinish1 (V1.pipeThrough Fixtures.only_message_end initial)
     <> count isTerminal Fixtures.only_message_end.
Proof. vm_compute. split; discriminate. Qed.

(** C2, amended: for every sequence of chunks and every starting state, the
    number of [finish] parts the transform emits equals the number of
    successfully decoded [workflow_finished] events in the sequence;
    [message_end] events, like every other event kind and like decode
    failures, add none. *)
Theorem finish_parts_count_workflow_finished :
  forall (msgId : string) (chunks : list ParseResult) (acc : Accumulator),
    count isFinish (V2.pipeThrough msgId chunks acc)
    = count (isEvent "workflow_finished") chunks
    /\ count isFinish1 (V1.pipeThrough chunks acc)
       = count (isEvent "workflow_finished") chunks.
Proof.
  intros msgId chunks. induction chunks as [|chunk rest IH]; intros acc.
  - split; reflexivity.
  - rewrite V2_pipeThrough_cons, V1_pipeThrough_cons, !count_app.
    rewrite V2_transform_finish_count, V1_transform_finish_count.
    destruct (IH (accStep chunk acc)) as [-> ->].
    simpl. split; reflexivity.
Qed.

(** ** Usage of a [message_end] event (chat model) *)

(** C3: for every [message_end] event that carries a numeric
    [data.total_tokens] together with a [metadata.usage] object, the finish
    part has [outputTokens] equal to [data.total_tokens], whatever the
    counters of [metadata.usage] are. *)
Theorem message_end_prefers_nested_total :
  forall (data d : gmap string JSONValue) (n : Z) (u : MetadataUsage)
         (acc : Accumulator),
    eventOf data = "message_end" ->
    data !! "data" = Some (JObj d) ->
    d !! "total_tokens" = Some (JNum n) ->
    Chat.metadataUsageOf data = Some u ->
    Chat.outputTokensOf (Chat.finishFor data acc) = Some n.
Proof.
  intros data d n u acc Hev Hd Hn _.
  unfold Chat.finishFor. rewrite Hev. cbn [String.eqb orb Chat.outputTokensOf].
  simpl. rewrite totalTokensOf_nestedTotal. unfold nestedTotal.
  rewrite Hd, Hn. reflexivity.
Qed.

(** The fixture with [data.total_tokens] = 50 and
    [metadata.usage.total_tokens] = 35 yields 50. *)
Lemma message_end_prefers_nested_total_witness :
  eventOf Fixtures.message_end_with_data = "message_end"
  /\ Chat.metadataUsageOf Fixtures.message_end_with_data
     = Some {| completion_tokens := 25; prompt_tokens := 10;
               total_tokens := 35 |}
  /\ Chat.outputTokensOf (Chat.finishFor Fixtures.message_end_with_data initial)
     = Some 50.
Proof.
  split; [reflexivity|]. split; [vm_compute; reflexivity|].
  apply (message_end_prefers_nested_total
           Fixtures.message_end_with_data
           (list_to_map [("total_tokens", JNum 50)]) 50
           {| completion_tokens := 25; prompt_tokens := 10;
              total_tokens := 35 |} initial);
    vm_compute; reflexivity.
Defined.

(** C4, as stated, fails: on the fixture whose [message_end] has no [data]
    field and carries [metadata.usage] = {10, 25, 35}, the finish part's
    [outputTokens] is 0 (as the test suite expects), not the 25 completion
    tokens of [metadata.usage]. *)
Lemma message_end_ignores_metadata_usage :
  Fixtures.message_end_usage_only !! "data" = None
  /\ Chat.metadataUsageOf Fixtures.message_end_usage_only
     = Some {| completion_tokens := 25; prompt_tokens := 10;
               total_tokens := 35 |}
  /\ Chat.outputTokensOf
       (Chat.finishFor Fixtures.message_end_usage_only initial)
     <> Some 25.
Proof.
  split; [vm_compute; reflexivity|]. split; [vm_compute; reflexivity|].
  vm_compute. discriminate.
Qed.

(** C4, amended: for every [message_end] event with no [data.total_tokens]
    field, the finish part's [outputTokens] is 0, also when a
    [metadata.usage] object is present: the counters of [metadata.usage] do
    not reach the finish part. *)
Theorem message_end_without_nested_total :
  forall (data : gmap string JSONValue) (acc : Accumulator),
    eventOf data = "message_end" ->
    Js.get "total_tokens" (data !! "data") = None ->
    Chat.outputTokensOf (Chat.finishFor data acc) = Some 0.
Proof.
  intros data acc Hev Hnone.
  unfold Chat.finishFor. rewrite Hev. simpl.
  rewrite totalTokensOf_nestedTotal. unfold nestedTotal.
  unfold Js.get in Hnone.
  destruct (data !! "data") as [[]|]; try reflexivity.
  rewrite Hnone. reflexivity.
Qed.

Lemma message_end_without_nested_total_witness :
  eventOf Fixtures.message_end_usage_only = "message_end"
  /\ Js.get "total_tokens" (Fixtures.message_end_usage_only !! "data") = None
  /\ Chat.outputTokensOf
       (Chat.finishFor Fixtures.message_end_usage_only initial) = Some 0.
Proof.
  split; [reflexivity|]. split; [vm_compute; reflexivity|].
  apply (message_end_without_nested_total
           Fixtures.message_end_usage_only initial);
    vm_compute; reflexivity.
Defined.

(** ** The [workflow_finished] branch *)

(** The LanguageModelV1 transform emits the same finish part in its own
    usage shape (no [text-end], no total). *)
Lemma V1_workflow_finished (data : gmap string JSONValue) (acc : Accumulator) :
  eventOf data = "workflow_finished" ->
  fst (V1.transform (Success data) acc)
  = [V1.Finish Stop
       {| md_workflowRunId := workflowRunId (storeIds data acc);
          md_taskId := taskId (storeIds data acc) |}
       {| V1.promptTokens := 0; V1.completionTokens := nestedTotal data |}].
Proof.
  intros Hev. unfold V1.transform. rewrite Hev. cbn [String.eqb fst].
  simpl. rewrite totalTokensOf_nestedTotal. reflexivity.
Qed.

Lemma V2_workflow_finished (msgId : string) (data : gmap string JSONValue)
    (acc : Accumulator) :
  eventOf data = "workflow_finished" ->
  fst (V2.transform msgId (Success data) acc)
  = [V2.TextEnd msgId;
     V2.Finish Stop
       {| md_workflowRunId := workflowRunId (storeIds data acc);
          md_taskId := taskId (storeIds data acc) |}
       {| V2.inputTokens := 0;
          V2.outputTokens := nestedTotal data;
          V2.totalTokens := nestedTotal data |}].
Proof.
  intros Hev. unfold V2.transform. rewrite Hev. cbn [String.eqb fst].
  simpl. rewrite totalTokensOf_nestedTotal. reflexivity.
Qed.

(** C6: for every [workflow_finished] event the transform emits (after the
    [text-end]) one [finish] part with finish reason "stop", usage
    {inputTokens 0, outputTokens T, totalTokens T} where T is the nested
    [data.total_tokens] when present and numeric and 0 otherwise, and
    [difyWorkflowData] holding the captured [workflowRunId] and [taskId],
    each replaced by the value this same event carries when that value is
    truthy. *)
Theorem workflow_finished_emits_finish :
  forall (msgId : string) (data : gmap string JSONValue) (acc : Accumulator),
    eventOf data = "workflow_finished" ->
    V2.transform msgId (Success data) acc
    = ([V2.TextEnd msgId;
        V2.Finish Stop
          {| md_workflowRunId :=
               if Js.truthy (data !! "workflow_run_id")
               then data !! "workflow_run_id" else workflowRunId acc;
             md_taskId :=
               if Js.truthy (data !! "task_id")
               then data !! "task_id" else taskId acc |}
          {| V2.inputTokens := 0;
             V2.outputTokens := nestedTotal data;
             V2.totalTokens := nestedTotal data |}],
       storeIds data acc).
Proof.
  intros msgId data acc Hev.
  rewrite (surjective_pairing (V2.transform msgId (Success data) acc)).
  rewrite (V2_workflow_finished msgId data acc Hev), V2_transform_acc.
  reflexivity.
Qed.

Lemma workflow_finished_emits_finish_witness :
  eventOf (Fixtures.workflow_finished 42) = "workflow_finished"
  /\ V2.transform "m" (Success (Fixtures.workflow_finished 42))
       {| workflowRunId := Some (JStr "old"); taskId := Some (JStr "task1") |}
     = ([V2.TextEnd "m";
         V2.Finish Stop
           {| md_workflowRunId := Some (JStr "wfr1");
              md_taskId := Some (JStr "task1") |}
           {| V2.inputTokens := 0; V2.outputTokens := 42;
              V2.totalTokens := 42 |}],
        {| workflowRunId := Some (JStr "wfr1");
           taskId := Some (JStr "task1") |}).
Proof.
  split; [reflexivity|].
  exact (workflow_finished_emits_finish "m" (Fixtures.workflow_finished 42)
           {| workflowRunId := Some (JStr "old");
              taskId := Some (JStr "task1") |} eq_refl).
Defined.

(** ** Text spans *)

Lemma V2_transform_text_start_count msgId chunk acc :
  count isTextStart (fst (V2.transform msgId chunk acc))
  = if isStartedWithRunId chunk then 1%nat else 0%nat.
Proof.
  destruct chunk as [data|error]; [|reflexivity].
  unfold V2.transform, isStartedWithRunId. cbn [fst].
  destruct (String.eqb (eventOf data) "workflow_finished") eqn:Hfin.
  { apply String.eqb_eq in Hfin. rewrite Hfin. reflexivity. }
  destruct (String.eqb (eventOf data) "text_chunk") eqn:Htxt.
  { apply String.eqb_eq in Htxt. rewrite Htxt.
    destruct (textOf data); reflexivity. }
  destruct (String.eqb (eventOf data) "workflow_started"); [|reflexivity].
  destruct (runIdOf data); reflexivity.
Qed.

Lemma V2_transform_text_end_count msgId chunk acc :
  count isTextEnd (fst (V2.transform msgId chunk acc))
  = if isEvent "workflow_finished" chunk then 1%nat else 0%nat.
Proof.
  destruct chunk as [data|error]; [|reflexivity].
  unfold V2.transform, isEvent. cbn [fst].
  destruct (String.eqb (eventOf data) "workflow_finished"); [reflexivity|].
  destruct (String.eqb (eventOf data) "text_chunk").
  { destruct (textOf data); reflexivity. }
  destruct (String.eqb (eventOf data) "workflow_started"); [|reflexivity].
  destruct (runIdOf data); reflexivity.
Qed.

(** C7, as stated, fails: the transform keeps no "span open" flag, so two
    [workflow_started] events yield two [text-start] parts, and a
    [workflow_finished] that no [workflow_started] preceded still yields a
    [text-end]. *)
Lemma text_start_emitted_twice :
  ~ (count isTextStart (V2.pipeThrough "m" Fixtures.started_twice initial)
     <= 1)%nat
  /\ V2.pipeThrough "m" [Success (Fixtures.workflow_finished 15)] initial
     = [V2.TextEnd "m";
        V2.Finish Stop
          {| md_workflowRunId := Some (JStr "wfr1"); md_taskId := None |}
          {| V2.inputTokens := 0; V2.outputTokens := 15;
             V2.totalTokens := 15 |}].
Proof.
  split; [vm_compute; lia | vm_compute; reflexivity].
Qed.

(** C7, amended: [workflow_started] emits [response-metadata] followed by
    [text-start] whenever the event's [workflow_run_id] is a string,
    whatever was emitted before, and [workflow_finished] always emits
    [text-end] before its [finish]; so a stream has as many [text-start]
    parts as [workflow_started] events with a string [workflow_run_id] and
    as many [text-end] parts as [workflow_finished] events. *)
Theorem text_span_parts_follow_events :
  forall (msgId : string) (chunks : list ParseResult) (acc : Accumulator),
    (forall data id,
        eventOf data = "workflow_started" ->
        data !! "workflow_run_id" = Some (JStr id) ->
        fst (V2.transform msgId (Success data) acc)
        = [V2.ResponseMetadata id; V2.TextStart msgId])
    /\ (forall data,
           eventOf data = "workflow_finished" ->
           exists finish,
             isFinish finish = true
             /\ fst (V2.transform msgId (Success data) acc)
                = [V2.TextEnd msgId; finish])
    /\ count isTextStart (V2.pipeThrough msgId chunks acc)
       = count isStartedWithRunId chunks
    /\ count isTextEnd (V2.pipeThrough msgId chunks acc)
       = count (isEvent "workflow_finished") chunks.
Proof.
  intros msgId chunks acc. split; [|split].
  - intros data id Hev Hid. apply runIdOf_Some in Hid.
    unfold V2.transform. rewrite Hev, Hid. reflexivity.
  - intros data Hev. eexists. split; [|unfold V2.transform; rewrite Hev].
    2: cbn [String.eqb]; simpl; reflexivity.
    reflexivity.
  - revert acc. induction chunks as [|chunk rest IH]; intros acc.
    + split; reflexivity.
    + rewrite V2_pipeThrough_cons, !count_app.
      rewrite V2_transform_text_start_count, V2_transform_text_end_count.
      destruct (IH (accStep chunk acc)) as [-> ->].
      simpl. split; reflexivity.
Qed.

Lemma text_span_parts_follow_events_witness :
  eventOf Fixtures.workflow_started = "workflow_started"
  /\ Fixtures.workflow_started !! "workflow_run_id" = Some (JStr "wfr1")
  /\ fst (V2.transform "m" (Success Fixtures.workflow_started) initial)
     = [V2.ResponseMetadata "wfr1"; V2.TextStart "m"]
  /\ count isTextStart (V2.pipeThrough "m" Fixtures.started_twice initial)
     = 2%nat.
Proof.
  split; [reflexivity|]. split; [vm_compute; reflexivity|].
  destruct (text_span_parts_follow_events "m" Fixtures.started_twice initial)
    as (Hstart & _ & Hcount & _).
  split.
  - apply Hstart; vm_compute; reflexivity.
  - rewrite Hcount. vm_compute. reflexivity.
Defined.

(** ** Blocking mode *)





(** Under the response schema without [metadata] the same body is decoded,
    and the LanguageModelV1 [doGenerate] answers with zero usage. *)
Example V1_plain_schema_zero_usage :
  exists res,
    V1.doGenerate
      (construct "workflow" Fixtures.noSettings Fixtures.config)
      (answeringJson PlainSchema.workflowCompletionResponseSchema
         blockingBodyWithoutUsage) "generated" Fixtures.options
    = inr res
    /\ V1.usage res = {| V1.promptTokens := 0; V1.completionTokens := 0 |}.
Proof. eexists. split; [vm_compute; reflexivity|reflexivity]. Qed.




(** ** Blocking mode against streaming mode *)

(** C9, as stated, fails: for the usage {5, 7, 12}, blocking mode reports
    {5, 7, 12} while a stream whose [workflow_finished] carries the same
    total reports {0, 12, 12}. *)
Lemma blocking_and_streaming_usage_differ :
  option_map snd
    (finalOf (V2.pipeThrough "m"
                [Success (Fixtures.workflow_finished
                            (total_tokens Fixtures.usage_5_7_12))] initial))
  <> Some (V2.usage (V2.reduce Fixtures.body "generated"
                       (Fixtures.response Fixtures.usage_5_7_12))).
Proof. vm_compute. discriminate. Qed.

Lemma finalOf_snoc_finish parts text_end reason md usage :
  isFinish text_end = false ->
  finalOf (parts ++ [text_end; V2.Finish reason md usage])
  = Some (reason, usage).
Proof.
  intros Hnot. unfold finalOf. rewrite omap_app.
  destruct text_end; try discriminate Hnot; simpl; apply last_snoc.
Qed.

(** The LanguageModelV1 pair: blocking usage is {0, 0}, a stream ending in
    [workflow_finished] reports {0, T}; they agree exactly when T is 0. *)
Lemma V1_blocking_and_streaming (body : RequestBody) (generated : string)
    {M : Type} (r : CompletionResponse M)
    (pre : list ParseResult) (data : gmap string JSONValue)
    (acc : Accumulator) :
  eventOf data = "workflow_finished" ->
  exists usage,
    finalOf1 (V1.pipeThrough (pre ++ [Success data]) acc)
    = Some (V1.finishReason (V1.reduce body generated r), usage)
    /\ (usage = V1.usage (V1.reduce body generated r)
        <-> nestedTotal data = 0).
Proof.
  intros Hev. eexists. split.
  - rewrite V1_pipeThrough_app, V1_pipeThrough_cons.
    rewrite (V1_workflow_finished _ _ Hev). simpl.
    unfold finalOf1. rewrite omap_app. simpl. apply last_snoc.
  - simpl. split; [intros [= ->]; reflexivity | intros ->; reflexivity].
Qed.

(** C9, amended: blocking mode and a stream that ends with a
    [workflow_finished] event always agree on the finish reason "stop"; for
    a response with usage {prompt, completion, total} and a final event
    carrying the same total, the stream reports {0, total, total}, which is
    the blocking usage exactly when prompt is 0 and completion equals
    total. *)
Theorem blocking_and_streaming_reconcile :
  forall (msgId generated : string) (body : RequestBody)
         (r : CompletionResponse MetadataUsage)
         (pre : list ParseResult) (data : gmap string JSONValue)
         (acc : Accumulator),
    eventOf data = "workflow_finished" ->
    nestedTotal data = total_tokens (metadata r) ->
    exists usage,
      finalOf (V2.pipeThrough msgId (pre ++ [Success data]) acc)
      = Some (V2.finishReason (V2.reduce body generated r), usage)
      /\ usage = {| V2.inputTokens := 0;
                    V2.outputTokens := total_tokens (metadata r);
                    V2.totalTokens := total_tokens (metadata r) |}
      /\ (usage = V2.usage (V2.reduce body generated r)
          <-> prompt_tokens (metadata r) = 0
              /\ completion_tokens (metadata r) = total_tokens (metadata r)).
Proof.
  intros msgId generated body r pre data acc Hev Htotal.
  eexists. split; [|split; [reflexivity|]].
  - rewrite V2_pipeThrough_app, V2_pipeThrough_cons.
    rewrite (V2_workflow_finished msgId data _ Hev).
    cbn [V2.pipeThrough]. rewrite app_nil_r, Htotal.
    apply finalOf_snoc_finish. reflexivity.
  - simpl. split.
    + intros [= <- <-]. split; reflexivity.
    + intros [-> ->]. reflexivity.
Qed.

Lemma blocking_and_streaming_reconcile_witness :
  eventOf (Fixtures.workflow_finished 12) = "workflow_finished"
  /\ nestedTotal (Fixtures.workflow_finished 12)
     = total_tokens (metadata (Fixtures.response Fixtures.usage_5_7_12))
  /\ exists usage,
      finalOf (V2.pipeThrough "m"
                 ([Success Fixtures.workflow_started]
                  ++ [Success (Fixtures.workflow_finished 12)]) initial)
      = Some (Stop, usage)
      /\ usage = {| V2.inputTokens := 0; V2.outputTokens := 12;
                    V2.totalTokens := 12 |}
      /\ (usage = {| V2.inputTokens := 5; V2.outputTokens := 7;
                     V2.totalTokens := 12 |}
          <-> 5 = 0 /\ 7 = 12).
Proof.
  split; [reflexivity|]. split; [vm_compute; reflexivity|].
  exact (blocking_and_streaming_reconcile "m" "generated" Fixtures.body
           (Fixtures.response Fixtures.usage_5_7_12)
           [Success Fixtures.workflow_started]
           (Fixtures.workflow_finished 12) initial eq_refl eq_refl).
Defined.

(** ** Request bodies and the response mode *)

Ltac validation_case :=
  left; eexists; split; [|reflexivity];
  eexists; split; [reflexivity | simpl; tauto].

(** What [getRequestBody] returns depends on the model only through
    [buildBody]. *)
Lemma V2_getRequestBody_cases (m : Model) (o : CallOptions) :
  (exists e, validationError e
             /\ forall m', V2.getRequestBody m' o = inl e)
  \/ (exists query,
         forall m', V2.getRequestBody m' o
                    = inr (buildBody m' query o, cleanHeaders o)).
Proof.
  unfold V2.getRequestBody.
  destruct (match prompt o with Some ms => Some ms | None => messages o end)
    as [ms|].
  2: { validation_case. }
  destruct (last ms) as [latest|].
  2: { validation_case. }
  destruct (negb (String.eqb (role latest) "user")).
  { validation_case. }
  destruct (V2.hasAttachments (content latest)).
  { validation_case. }
  right. eexists. reflexivity.
Qed.

Lemma V1_getRequestBody_cases (m : Model) (o : CallOptions) :
  (exists e, validationError e
             /\ forall m', V1.getRequestBody m' o = inl e)
  \/ (exists query,
         forall m', V1.getRequestBody m' o
                    = inr (buildBody m' query o, cleanHeaders o)).
Proof.
  unfold V1.getRequestBody.
  destruct (match messages o with Some ms => Some ms | None => prompt o end)
    as [ms|].
  2: { validation_case. }
  destruct (last ms) as [latest|].
  2: { validation_case. }
  destruct (negb (String.eqb (role latest) "user")).
  { validation_case. }
  destruct (V1.hasAttachments (content latest)).
  { validation_case. }
  right. eexists. reflexivity.
Qed.
















(** ** Exceptions raised by the operations *)

Section Raises.

Context {A R : Type}.
Variable getBody :
  Model -> CallOptions -> Exception + (RequestBody * CallOptions).
Variable sent : RequestBody -> RequestBody.
Variable finish : RequestBody -> A -> R.

Hypothesis getBody_cases :
  forall (m : Model) (o : CallOptions),
    (exists e, validationError e /\ forall m', getBody m' o = inl e)
    \/ (exists query,
           forall m', getBody m' o
                      = inr (buildBody m' query o, cleanHeaders o)).

Lemma operation_raisesByKind m o :
  raisesByKind getBody sent (operation getBody sent finish m o) m o.
Proof.
  unfold raisesByKind, operation. split; [|split].
  - intros e He. split; [|intros post; rewrite He; reflexivity].
    destruct (getBody_cases m o) as [(e' & Hval & He')|(query & Hq)].
    + rewrite He' in He. injection He as <-. exact Hval.
    + rewrite Hq in He. discriminate.
  - intros body o' e Hbody Hconf post. rewrite Hbody, Hconf. reflexivity.
  - intros body o' configured post Hbody Hconf. rewrite Hbody, Hconf.
    destruct (post _ _) as [st [message|]|r|e]; try reflexivity.
    eexists. reflexivity.
Qed.

End Raises.

(** An undecodable error body, a success body the schema refuses and a
    failing connection. *)
Example other_transport_errors :
  V2.doGenerate
    (construct "workflow" Fixtures.noSettings Fixtures.config)
    (Fixtures.answering (HttpFailed "Bad Gateway" None))
    "generated" Fixtures.options
  = inl (APICallError "Bad Gateway")
  /\ V2.doGenerate
       (construct "workflow" Fixtures.noSettings Fixtures.config)
       (answeringJson Schema.workflowCompletionResponseSchema ∅)
       "generated" Fixtures.options
     = inl (APICallError "Invalid JSON response")
  /\ V2.doStream
       (construct "workflow" Fixtures.noSettings Fixtures.config)
       (Fixtures.answering
          (HttpThrows (APICallError "Cannot connect to API: refused")))
       "m" Fixtures.options
     = inl (APICallError "Cannot connect to API: refused").
Proof. split; [|split]; reflexivity. Qed.

(** A model made by the provider without an API key raises the key lookup's
    error once the request has passed validation. *)
Example missing_api_key_raises :
  V2.doGenerate
    (createCompletionModel
       {| ps_baseURL := None; ps_headers := None |} None
       "workflow" Fixtures.noSettings)
    (Fixtures.answering (HttpOk (Fixtures.response Fixtures.usage_5_7_12)))
    "generated" Fixtures.options
  = inl LoadAPIKeyError.
Proof. reflexivity. Qed.

(** C5, as stated, fails: with no messages in the call options both
    operations raise an API-call error of their own, "No messages provided",
    although the upstream answers with success; its message does not carry
    the "Dify API error: " prefix. *)
Lemma request_validation_raises :
  V2.doGenerate
    (construct "workflow" Fixtures.noSettings Fixtures.config)
    (Fixtures.answering (HttpOk (Fixtures.response Fixtures.usage_5_7_12)))
    "generated" Fixtures.noMessages
  = inl (APICallError "No messages provided")
  /\ V2.doStream
       (construct "workflow" Fixtures.noSettings Fixtures.config)
       (Fixtures.answering (HttpOk [Success Fixtures.workflow_started]))
       "m" Fixtures.noMessages
     = inl (APICallError "No messages provided")
  /\ String.prefix "Dify API error: " "No messages provided" = false.
Proof. split; [|split]; reflexivity. Qed.

(** C5, amended: the typed API-call error "Dify API error: " plus the
    upstream message is what both operations of both versions raise when
    the upstream answers a valid request with a non-success status and a
    decodable error body, and it is not the only exception that reaches the
    caller. A request that fails the validation of [getRequestBody] raises
    that API-call error ("No messages provided", "The last message must be
    a user message", attachments) whatever the transport would answer;
    otherwise an exception of the configured headers function is raised;
    otherwise the transport's outcome decides: the prefixed error for a
    decoded error body, an API-call error with the bare status text for an
    empty or undecodable one, and whatever the transport itself throws,
    unchanged (the JSON handler's "Invalid JSON response" for a success
    body it refuses, a failed connection, an abort). *)
Theorem raised_exceptions_by_kind :
  forall (m : Model) (msgId generated : string) (o : CallOptions),
    raisesByKind V2.getRequestBody (fun body => body)
      (fun post => V2.doGenerate m post generated o) m o
    /\ raisesByKind V2.getRequestBody V2.streamingBody
         (fun post => V2.doStream m post msgId o) m o
    /\ (forall M : Type,
           raisesByKind (A := CompletionResponse M) V1.getRequestBody
             (fun body => body)
             (fun post => V1.doGenerate m post generated o) m o)
    /\ raisesByKind V1.getRequestBody V1.streamingBody
         (fun post => V1.doStream m post o) m o.
Proof.
  intros m msgId generated o. split; [|split; [|split]].
  - exact (operation_raisesByKind V2.getRequestBody (fun body => body)
             (fun body r => V2.reduce body generated r)
             V2_getRequestBody_cases m o).
  - exact (operation_raisesByKind V2.getRequestBody V2.streamingBody
             (fun body chunks =>
                {| V2.stream := V2.pipeThrough msgId chunks initial;
                   V2.sr_requestBody := body |})
             V2_getRequestBody_cases m o).
  - intros M.
    exact (operation_raisesByKind V1.getRequestBody (fun body => body)
             (fun body (r : CompletionResponse M) =>
                V1.reduce body generated r)
             V1_getRequestBody_cases m o).
  - exact (operation_raisesByKind V1.getRequestBody V1.streamingBody
             (fun body chunks =>
                {| V1.stream := V1.pipeThrough chunks initial;
                   V1.sr_requestBody := body |})
             V1_getRequestBody_cases m o).
Qed.

(** The failing response of the test suite, replayed. *)
Lemma raised_exceptions_by_kind_witness :
  Fixtures.answering (A := CompletionResponse MetadataUsage)
    Fixtures.badRequest
    (buildBody (construct "workflow" Fixtures.noSettings Fixtures.config)
       "Hi" Fixtures.options)
    (combineHeaders {[ "Authorization" := "Bearer test" ]}
       (headers (cleanHeaders Fixtures.options)))
  = HttpFailed "Bad Request" (Some "Bad Request: Invalid input parameters")
  /\ V2.doGenerate
       (construct "workflow" Fixtures.noSettings Fixtures.config)
       (Fixtures.answering Fixtures.badRequest) "generated" Fixtures.options
     = inl (APICallError
              "Dify API error: Bad Request: Invalid input parameters").
Proof.
  split; [reflexivity|].
  destruct (proj1 (raised_exceptions_by_kind
                     (construct "workflow" Fixtures.noSettings Fixtures.config)
                     "m" "generated" Fixtures.options))
    as (_ & _ & Htransport).
  assert (Hbody :
            V2.getRequestBody
              (construct "workflow" Fixtures.noSettings Fixtures.config)
              Fixtures.options
            = inr (buildBody
                     (construct "workflow" Fixtures.noSettings Fixtures.config)
                     "Hi" Fixtures.options,
                   cleanHeaders Fixtures.options))
    by (vm_compute; reflexivity).
  exact (Htransport _ _ _ (Fixtures.answering Fixtures.badRequest)
           Hbody eq_refl).
Defined.

(** * Further properties of the stream transform *)

(** The guard of the [text_chunk] branch selects exactly the nested string
    text. *)
Lemma textOf_nestedText (data : gmap string JSONValue) :
  textOf data = nestedText data.
Proof.
  unfold textOf, nestedText.
  destruct (data !! "data") as [[| b | n | s | items | d]|]; simpl;
    try reflexivity.
  - destruct b; reflexivity.
  - destruct (Z.eqb n 0); reflexivity.
  - destruct (String.eqb s ""); reflexivity.
  - destruct (d !! "text") as [[]|]; simpl; try reflexivity.
    all: rewrite ?andb_false_r; try reflexivity.
    all: match goal with
         | |- (if ?b then _ else _) = _ => destruct b; reflexivity
         end.
Qed.

Lemma omap_cons_case {A B} (f : A -> option B) (x : A) (l : list A) :
  omap f (x :: l) = match f x with Some y => y :: omap f l | None => omap f l end.
Proof. reflexivity. Qed.

Lemma V1_transform_is_projection msgId chunk acc :
  fst (V1.transform chunk acc)
  = omap toV1 (fst (V2.transform msgId chunk acc)).
Proof.
  destruct chunk as [data|error]; [|reflexivity].
  unfold V1.transform, V2.transform. cbn [fst].
  destruct (String.eqb (eventOf data) "workflow_finished"); [reflexivity|].
  destruct (String.eqb (eventOf data) "text_chunk").
  { destruct (textOf data); reflexivity. }
  destruct (String.eqb (eventOf data) "workflow_started"); [|reflexivity].
  destruct (runIdOf data); reflexivity.
Qed.

(** X1: the LanguageModelV1 stream is the LanguageModelV2 stream with the
    [text-start] and [text-end] parts removed, the id of each delta dropped
    and the usage of each finish part cut down to prompt and completion
    tokens; nothing else differs, for every chunk sequence and state. *)
Theorem V1_stream_is_projection_of_V2 :
  forall (msgId : string) (chunks : list ParseResult) (acc : Accumulator),
    V1.pipeThrough chunks acc = omap toV1 (V2.pipeThrough msgId chunks acc).
Proof.
  intros msgId chunks. induction chunks as [|chunk rest IH]; intros acc.
  - reflexivity.
  - rewrite V1_pipeThrough_cons, V2_pipeThrough_cons, omap_app.
    rewrite <- (V1_transform_is_projection msgId), IH. reflexivity.
Qed.

Lemma V2_transform_deltas msgId chunk acc :
  omap deltaOf (fst (V2.transform msgId chunk acc))
  = match textChunkOf chunk with Some t => [t] | None => [] end.
Proof.
  destruct chunk as [data|error]; [|reflexivity].
  unfold V2.transform, textChunkOf. cbn [fst].
  rewrite textOf_nestedText.
  destruct (String.eqb (eventOf data) "workflow_finished") eqn:Hfin.
  { apply String.eqb_eq in Hfin. rewrite Hfin. reflexivity. }
  destruct (String.eqb (eventOf data) "text_chunk").
  { destruct (nestedText data); reflexivity. }
  destruct (String.eqb (eventOf data) "workflow_started"); [|reflexivity].
  destruct (runIdOf data); reflexivity.
Qed.

(** X2: the deltas of the [text-delta] parts of a stream are exactly the
    texts of its [text_chunk] events whose [data.text] is a string, in
    arrival order, all under the one id of the stream; an empty text is
    forwarded as an empty delta, and no other event kind ([message],
    [agent_message], ...) produces a delta. *)
Theorem text_deltas_follow_text_chunks :
  forall (msgId : string) (chunks : list ParseResult) (acc : Accumulator),
    omap deltaOf (V2.pipeThrough msgId chunks acc) = omap textChunkOf chunks
    /\ (forall id delta,
           In (V2.TextDelta id delta) (V2.pipeThrough msgId chunks acc) ->
           id = msgId).
Proof.
  intros msgId chunks. induction chunks as [|chunk rest IH]; intros acc.
  - split; [reflexivity|]. intros id delta [].
  - destruct (IH (accStep chunk acc)) as [IHd IHid].
    rewrite V2_pipeThrough_cons. split.
    + rewrite omap_app, V2_transform_deltas, IHd, omap_cons_case.
      destruct (textChunkOf chunk); reflexivity.
    + intros id delta Hin. apply in_app_or in Hin as [Hin|Hin].
      2: exact (IHid id delta Hin).
      destruct chunk as [data|error]; [|destruct Hin as [Hin|[]]; discriminate].
      unfold V2.transform in Hin. cbn [fst] in Hin.
      destruct (String.eqb (eventOf data) "workflow_finished").
      { destruct Hin as [Hin|[Hin|[]]]; discriminate. }
      destruct (String.eqb (eventOf data) "text_chunk").
      { destruct (textOf data); [|destruct Hin].
        destruct Hin as [Hin|[]]. injection Hin as -> _. reflexivity. }
      destruct (String.eqb (eventOf data) "workflow_started");
        [|destruct Hin].
      destruct (runIdOf data); [|destruct Hin].
      destruct Hin as [Hin|[Hin|[]]]; discriminate.
Qed.

(** Three string texts, one of them empty, come out as three deltas; the
    [message] event and the numeric text give none. *)
Lemma text_deltas_follow_text_chunks_witness :
  omap textChunkOf textChunks = ["Hel"; ""; "lo"]
  /\ V2.pipeThrough "m" textChunks initial
     = [V2.TextDelta "m" "Hel"; V2.TextDelta "m" ""; V2.TextDelta "m" "lo"]
  /\ omap deltaOf (V2.pipeThrough "m" textChunks initial) = ["Hel"; ""; "lo"].
Proof.
  split; [vm_compute; reflexivity|]. split; [vm_compute; reflexivity|].
  rewrite (proj1 (text_deltas_follow_text_chunks "m" textChunks initial)).
  vm_compute. reflexivity.
Defined.

Lemma V2_transform_length msgId chunk acc :
  length (fst (V2.transform msgId chunk acc))
  = ((if isFailure chunk then 1 else 0)
     + (if isEvent "workflow_finished" chunk then 2 else 0)
     + match textChunkOf chunk with Some _ => 1 | None => 0 end
     + (if isStartedWithRunId chunk then 2 else 0))%nat.
Proof.
  destruct chunk as [data|error]; [|reflexivity].
  unfold V2.transform, isEvent, textChunkOf, isStartedWithRunId.
  cbn [fst isFailure]. rewrite textOf_nestedText.
  destruct (String.eqb (eventOf data) "workflow_finished") eqn:Hfin.
  { apply String.eqb_eq in Hfin. rewrite Hfin. reflexivity. }
  destruct (String.eqb (eventOf data) "text_chunk") eqn:Htxt.
  { apply String.eqb_eq in Htxt. rewrite Htxt.
    destruct (nestedText data); reflexivity. }
  destruct (String.eqb (eventOf data) "workflow_started"); [|reflexivity].
  destruct (runIdOf data); reflexivity.
Qed.

(** X3: the size of a stream is accounted for by four kinds of chunk: one
    part per decode failure, two per [workflow_finished], one per
    [text_chunk] with a string text and two per [workflow_started] with a
    string [workflow_run_id]; every other chunk adds no part. *)
Theorem stream_size_accounting :
  forall (msgId : string) (chunks : list ParseResult) (acc : Accumulator),
    length (V2.pipeThrough msgId chunks acc)
    = (count isFailure chunks
       + 2 * count (isEvent "workflow_finished") chunks
       + length (omap textChunkOf chunks)
       + 2 * count isStartedWithRunId chunks)%nat.
Proof.
  intros msgId chunks. induction chunks as [|chunk rest IH]; intros acc.
  - reflexivity.
  - rewrite V2_pipeThrough_cons, length_app, V2_transform_length, IH.
    rewrite omap_cons_case. cbn [count].
    destruct (isFailure chunk), (isEvent "workflow_finished" chunk),
      (textChunkOf chunk), (isStartedWithRunId chunk); cbn [length]; lia.
Qed.

Lemma stream_size_accounting_witness :
  length (omap textChunkOf textChunks) = 3%nat
  /\ length (V2.pipeThrough "m"
               (Failure "not-json" :: Success Fixtures.workflow_started
                :: textChunks ++ [Success (Fixtures.workflow_finished 15)])
               initial)
     = (1 + 2 * 1 + 3 + 2 * 1)%nat.
Proof.
  split; [vm_compute; reflexivity|].
  rewrite (stream_size_accounting "m"
             (Failure "not-json" :: Success Fixtures.workflow_started
              :: textChunks ++ [Success (Fixtures.workflow_finished 15)])
             initial).
  vm_compute. reflexivity.
Defined.

Lemma storeIds_inert data acc :
  Js.truthy (data !! "workflow_run_id") = false ->
  Js.truthy (data !! "task_id") = false ->
  storeIds data acc = acc.
Proof.
  intros Hrun Htask. unfold storeIds. rewrite Hrun, Htask.
  destruct acc; reflexivity.
Qed.

Lemma V2_transform_inert msgId chunk acc :
  isInert chunk = true -> V2.transform msgId chunk acc = ([], acc).
Proof.
  destruct chunk as [data|error]; [|discriminate].
  unfold isInert, V2.transform. intros H.
  repeat (apply andb_prop in H as [H ?]).
  repeat match goal with
         | Hn : negb _ = true |- _ => apply negb_true_iff in Hn
         end.
  rewrite storeIds_inert by assumption.
  repeat match goal with
         | Hn : String.eqb _ _ = false |- _ => rewrite Hn; clear Hn
         end.
  reflexivity.
Qed.

(** X4: events of a kind the transform has no case for and that carry no
    truthy [workflow_run_id] or [task_id] ([tts_message], [message],
    [node_started] without ids, ...) are invisible: removing them from the
    chunk sequence changes nothing in the output of the stream. *)
Theorem inert_events_are_invisible :
  forall (msgId : string) (chunks : list ParseResult) (acc : Accumulator),
    V2.pipeThrough msgId
      (List.filter (fun c => negb (isInert c)) chunks) acc
    = V2.pipeThrough msgId chunks acc.
Proof.
  intros msgId chunks. induction chunks as [|chunk rest IH]; intros acc.
  - reflexivity.
  - cbn [List.filter]. destruct (isInert chunk) eqn:Hinert; cbn [negb].
    + rewrite IH.
      change (V2.pipeThrough msgId (chunk :: rest) acc)
        with (let '(parts, acc') := V2.transform msgId chunk acc in
              parts ++ V2.pipeThrough msgId rest acc').
      rewrite (V2_transform_inert msgId chunk acc Hinert). reflexivity.
    + rewrite !V2_pipeThrough_cons, IH. reflexivity.
Qed.

(** ** Identifiers carried across events *)

Lemma accAfter_snoc chunks chunk acc :
  accAfter (chunks ++ [chunk]) acc = accStep chunk (accAfter chunks acc).
Proof. unfold accAfter. rewrite fold_left_app. reflexivity. Qed.

Lemma accAfter_lastTruthy chunks acc :
  workflowRunId (accAfter chunks acc)
  = match lastTruthy "workflow_run_id" chunks with
    | Some v => Some v
    | None => workflowRunId acc
    end
  /\ taskId (accAfter chunks acc)
     = match lastTruthy "task_id" chunks with
       | Some v => Some v
       | None => taskId acc
       end.
Proof.
  induction chunks as [|chunk chunks IH] using rev_ind; [split; reflexivity|].
  destruct IH as [IHrun IHtask].
  rewrite accAfter_snoc. unfold lastTruthy in *. rewrite !omap_app.
  destruct chunk as [data|error]; cbn [accStep omap list_omap truthyId].
  - unfold storeIds; cbn [workflowRunId taskId]. split.
    + destruct (Js.truthy (data !! "workflow_run_id")) eqn:Hrun.
      * destruct (data !! "workflow_run_id") as [v|]; [|discriminate Hrun].
        rewrite last_snoc. reflexivity.
      * rewrite app_nil_r. exact IHrun.
    + destruct (Js.truthy (data !! "task_id")) eqn:Htask.
      * destruct (data !! "task_id") as [v|]; [|discriminate Htask].
        rewrite last_snoc. reflexivity.
      * rewrite app_nil_r. exact IHtask.
  - rewrite !app_nil_r. split; assumption.
Qed.

Lemma lastTruthy_truthy key chunks v :
  lastTruthy key chunks = Some v -> Js.truthy (Some v) = true.
Proof.
  unfold lastTruthy. intros Hlast.
  apply last_Some_elem_of, list_elem_of_omap in Hlast as (chunk & _ & Hid).
  destruct chunk as [data|error]; [|discriminate Hid].
  cbn in Hid. destruct (Js.truthy (data !! key)) eqn:Ht; [|discriminate Hid].
  rewrite Hid in Ht. exact Ht.
Qed.

(** X5: the identifiers of a finish part are carried across events: in a
    stream that starts with no identifiers and ends with a
    [workflow_finished] event, the last part is the finish part, and its
    [workflowRunId] and [taskId] are the last truthy [workflow_run_id] and
    [task_id] seen in any successfully decoded event up to and including
    the final one ([undefined] when there was none); an empty, null or
    missing identifier never overwrites an earlier one, so an identifier a
    finish part reports is never falsy. *)
Theorem finish_reports_last_truthy_ids :
  forall (msgId : string) (pre : list ParseResult)
         (data : gmap string JSONValue),
    eventOf data = "workflow_finished" ->
    last (V2.pipeThrough msgId (pre ++ [Success data]) initial)
    = Some (V2.Finish Stop
              {| md_workflowRunId :=
                   lastTruthy "workflow_run_id" (pre ++ [Success data]);
                 md_taskId := lastTruthy "task_id" (pre ++ [Success data]) |}
              {| V2.inputTokens := 0;
                 V2.outputTokens := nestedTotal data;
                 V2.totalTokens := nestedTotal data |})
    /\ (forall v,
           lastTruthy "workflow_run_id" (pre ++ [Success data]) = Some v ->
           Js.truthy (Some v) = true)
    /\ (forall v,
           lastTruthy "task_id" (pre ++ [Success data]) = Some v ->
           Js.truthy (Some v) = true).
Proof.
  intros msgId pre data Hev. split; [|split].
  - rewrite V2_pipeThrough_app, V2_pipeThrough_cons.
    rewrite (V2_workflow_finished msgId data _ Hev).
    cbn [V2.pipeThrough]. rewrite app_nil_r.
    change (storeIds data (accAfter pre initial))
      with (accStep (Success data) (accAfter pre initial)).
    rewrite <- accAfter_snoc.
    destruct (accAfter_lastTruthy (pre ++ [Success data]) initial)
      as [-> ->].
    cbn [initial workflowRunId taskId].
    rewrite last_app. cbn [last].
    destruct (lastTruthy "workflow_run_id" (pre ++ [Success data])),
      (lastTruthy "task_id" (pre ++ [Success data])); reflexivity.
  - apply lastTruthy_truthy.
  - apply lastTruthy_truthy.
Qed.

Lemma finish_reports_last_truthy_ids_witness :
  eventOf finished_with_empty_run_id = "workflow_finished"
  /\ finished_with_empty_run_id !! "workflow_run_id" = Some (JStr "")
  /\ last (V2.pipeThrough "m"
             ([Success Fixtures.workflow_started]
              ++ [Success finished_with_empty_run_id]) initial)
     = Some (V2.Finish Stop
               {| md_workflowRunId := Some (JStr "wfr1"); md_taskId := None |}
               {| V2.inputTokens := 0; V2.outputTokens := 15;
                  V2.totalTokens := 15 |}).
Proof.
  assert (Hev : eventOf finished_with_empty_run_id = "workflow_finished")
    by (vm_compute; reflexivity).
  split; [exact Hev|]. split; [vm_compute; reflexivity|].
  rewrite (proj1 (finish_reports_last_truthy_ids "m"
                    [Success Fixtures.workflow_started]
                    finished_with_empty_run_id Hev)).
  vm_compute. reflexivity.
Defined.

(** X6: the transform composes along the stream: the output for a
    concatenation of two chunk sequences is the output for the first
    followed by the output for the second run from the state the first one
    left, and that state is the one the successfully decoded chunks built
    up (decode failures leave it alone); in both model versions. *)
Theorem stream_transform_composes :
  forall (msgId : string) (first second : list ParseResult)
         (acc : Accumulator),
    V2.pipeThrough msgId (first ++ second) acc
    = V2.pipeThrough msgId first acc
      ++ V2.pipeThrough msgId second (accAfter first acc)
    /\ V1.pipeThrough (first ++ second) acc
       = V1.pipeThrough first acc
         ++ V1.pipeThrough second (accAfter first acc)
    /\ accAfter (first ++ second) acc = accAfter second (accAfter first acc)
    /\ accAfter (List.filter (fun c => negb (isFailure c)) first) acc
       = accAfter first acc.
Proof.
  intros msgId first second acc. split; [|split; [|split]].
  - apply V2_pipeThrough_app.
  - apply V1_pipeThrough_app.
  - unfold accAfter. apply fold_left_app.
  - revert acc. induction first as [|chunk rest IH]; intros acc;
      [reflexivity|].
    destruct chunk as [data|error]; cbn [List.filter isFailure negb].
    + unfold accAfter in *. cbn [fold_left]. apply IH.
    + rewrite IH. reflexivity.
Qed.

(** * Further properties of the request body *)

Lemma V2_getRequestBody_inr m o body o' :
  V2.getRequestBody m o = inr (body, o') <->
  exists ms latest,
    match prompt o with Some ms => Some ms | None => messages o end = Some ms
    /\ last ms = Some latest
    /\ role latest = "user"
    /\ V2.hasAttachments (content latest) = false
    /\ body = buildBody m (V2.queryOf (content latest)) o
    /\ o' = cleanHeaders o.
Proof.
  unfold V2.getRequestBody. split.
  - destruct (match prompt o with Some ms => Some ms | None => messages o end)
      as [ms|]; [|discriminate].
    destruct (last ms) as [latest|] eqn:Hlast; [|discriminate].
    destruct (String.eqb (role latest) "user") eqn:Hrole; [|discriminate].
    destruct (V2.hasAttachments (content latest)) eqn:Hatt; [discriminate|].
    cbn [negb]. intros [= <- <-]. apply String.eqb_eq in Hrole.
    exists ms, latest. repeat split; auto.
  - intros (ms & latest & -> & -> & Hrole & -> & -> & ->).
    apply String.eqb_eq in Hrole. rewrite Hrole. reflexivity.
Qed.

Lemma V1_getRequestBody_inr m o body o' :
  V1.getRequestBody m o = inr (body, o') <->
  exists ms latest,
    match messages o with Some ms => Some ms | None => prompt o end = Some ms
    /\ last ms = Some latest
    /\ role latest = "user"
    /\ V1.hasAttachments (content latest) = false
    /\ body = buildBody m (V1.queryOf (content latest)) o
    /\ o' = cleanHeaders o.
Proof.
  unfold V1.getRequestBody. split.
  - destruct (match messages o with Some ms => Some ms | None => prompt o end)
      as [ms|]; [|discriminate].
    destruct (last ms) as [latest|] eqn:Hlast; [|discriminate].
    destruct (String.eqb (role latest) "user") eqn:Hrole; [|discriminate].
    destruct (V1.hasAttachments (content latest)) eqn:Hatt; [discriminate|].
    cbn [negb]. intros [= <- <-]. apply String.eqb_eq in Hrole.
    exists ms, latest. repeat split; auto.
  - intros (ms & latest & -> & -> & Hrole & -> & -> & ->).
    apply String.eqb_eq in Hrole. rewrite Hrole. reflexivity.
Qed.

(** X7: only the last message of a prompt reaches the request: whatever
    messages precede it (earlier turns, system messages, assistant
    answers), [getRequestBody] validates and builds the body from the last
    one alone, so the outcome (the error raised or the body built) is the
    one for a prompt holding just that message. *)
Theorem only_the_last_message_counts :
  forall (m : Model) (o : CallOptions) (earlier : list Message)
         (latest : Message),
    bodyOf (V2.getRequestBody m (withPrompt o (earlier ++ [latest])))
    = bodyOf (V2.getRequestBody m (withPrompt o [latest])).
Proof.
  intros m o earlier latest. unfold V2.getRequestBody, withPrompt.
  cbn [prompt]. rewrite last_snoc. cbn [last].
  destruct (negb (String.eqb (role latest) "user")); [reflexivity|].
  destruct (V2.hasAttachments (content latest)); reflexivity.
Qed.

(** X8: which of [prompt] and [messages] is read differs between the two
    versions, and an empty array in the preferred field hides the other
    field: the LanguageModelV2 model reads [prompt] whenever it is set and
    the LanguageModelV1 model reads [messages] whenever it is set, so with
    the preferred field set to an empty array the call fails with "No
    messages provided" whatever the other field holds. *)
Theorem preferred_field_hides_the_other :
  forall (m : Model) (ms other : list Message)
         (other' : option (list Message)) (h : option (gmap string string)),
    bodyOf (V2.getRequestBody m
              {| prompt := Some ms; messages := other'; headers := h |})
    = bodyOf (V2.getRequestBody m
                {| prompt := Some ms; messages := None; headers := h |})
    /\ bodyOf (V1.getRequestBody m
                 {| prompt := other'; messages := Some ms; headers := h |})
       = bodyOf (V1.getRequestBody m
                   {| prompt := None; messages := Some ms; headers := h |})
    /\ V2.getRequestBody m
         {| prompt := Some []; messages := Some other; headers := h |}
       = inl (APICallError "No messages provided")
    /\ V1.getRequestBody m
         {| prompt := Some other; messages := Some []; headers := h |}
       = inl (APICallError "No messages provided").
Proof.
  intros m ms other other' h. split; [|split; [|split]]; try reflexivity.
  - unfold V2.getRequestBody. cbn [prompt messages].
    destruct (last ms) as [latest|]; [|reflexivity].
    destruct (negb (String.eqb (role latest) "user")); [reflexivity|].
    destruct (V2.hasAttachments (content latest)); reflexivity.
  - unfold V1.getRequestBody. cbn [prompt messages].
    destruct (last ms) as [latest|]; [|reflexivity].
    destruct (negb (String.eqb (role latest) "user")); [reflexivity|].
    destruct (V1.hasAttachments (content latest)); reflexivity.
Qed.

(** X9: the workflow inputs of a request are the inputs of the settings
    plus the query: every input of the settings is sent as it is, an input
    of the settings named "query" replaces the query extracted from the
    message, and no other key is sent. *)
Theorem settings_inputs_override_query :
  forall (m : Model) (o : CallOptions) (body : RequestBody)
         (o' : CallOptions),
    V2.getRequestBody m o = inr (body, o') ->
    exists latest,
      (match prompt o with Some ms => Some ms | None => messages o end)
        ≫= last = Some latest
      /\ forall key,
          rb_inputs body !! key
          = match default ∅ (inputs (settings m)) !! key with
            | Some v => Some v
            | None =>
                if String.eqb key "query"
                then Some (JStr (V2.queryOf (content latest)))
                else None
            end.
Proof.
  intros m o body o' H.
  apply V2_getRequestBody_inr in H
    as (ms & latest & Hms & Hlast & _ & _ & -> & _).
  exists latest. split; [rewrite Hms; exact Hlast|].
  intros key. unfold buildBody. cbn [rb_inputs].
  rewrite lookup_union.
  destruct (default ∅ (inputs (settings m)) !! key) as [v|]; cbn.
  - destruct ({[ "query" := _ ]} !! key); reflexivity.
  - destruct (String.eqb key "query") eqn:Hkey.
    + apply String.eqb_eq in Hkey as ->. rewrite lookup_singleton_eq.
      reflexivity.
    + apply String.eqb_neq in Hkey. rewrite lookup_singleton_ne by congruence.
      reflexivity.
Qed.

Lemma settings_inputs_override_query_witness :
  exists body latest,
    V2.getRequestBody
      (construct "workflow" settingsWithInputs Fixtures.config)
      Fixtures.options = inr (body, cleanHeaders Fixtures.options)
    /\ last Fixtures.userPrompt = Some latest
    /\ V2.queryOf (content latest) = "Hi"
    /\ rb_inputs body !! "query" = Some (JStr "fixed")
    /\ rb_inputs body !! "lang" = Some (JStr "en")
    /\ rb_inputs body !! "other" = None.
Proof.
  assert (Hbody :
            V2.getRequestBody
              (construct "workflow" settingsWithInputs Fixtures.config)
              Fixtures.options
            = inr (buildBody
                     (construct "workflow" settingsWithInputs Fixtures.config)
                     "Hi" Fixtures.options,
                   cleanHeaders Fixtures.options))
    by (vm_compute; reflexivity).
  destruct (settings_inputs_override_query _ _ _ _ Hbody)
    as (latest & Hlast & Hkeys).
  eexists; exists latest. split; [exact Hbody|]. split; [exact Hlast|].
  injection Hlast as <-. split; [vm_compute; reflexivity|].
  split; [exact (eq_trans (Hkeys "query") eq_refl)|].
  split; [exact (eq_trans (Hkeys "lang") eq_refl)|].
  exact (eq_trans (Hkeys "other") eq_refl).
Defined.

(** X10: the caller's "user-id" header becomes the [user] field of the body
    and is removed from the call's headers: [user] is the header's value
    when the caller sent one and the placeholder "you_should_pass_user-id"
    otherwise, and the options handed on carry every other header
    unchanged, no "user-id", and the same prompt and messages. *)
Theorem user_id_moves_from_headers_to_body :
  forall (m : Model) (o : CallOptions) (body : RequestBody)
         (o' : CallOptions),
    V2.getRequestBody m o = inr (body, o') ->
    user body
    = default "you_should_pass_user-id" (default ∅ (headers o) !! "user-id")
    /\ prompt o' = prompt o
    /\ messages o' = messages o
    /\ exists h,
        headers o' = Some h
        /\ h !! "user-id" = None
        /\ forall name,
            name <> "user-id" -> h !! name = default ∅ (headers o) !! name.
Proof.
  intros m o body o' H.
  apply V2_getRequestBody_inr in H as (ms & latest & _ & _ & _ & _ & -> & ->).
  split; [|split; [reflexivity|split; [reflexivity|]]].
  - unfold buildBody, userIdOf. cbn [user].
    destruct (headers o) as [h|]; reflexivity.
  - eexists. split; [reflexivity|]. split.
    + apply lookup_delete_eq.
    + intros name Hname. apply lookup_delete_ne. congruence.
Qed.

Lemma user_id_moves_from_headers_to_body_witness :
  exists body o' h,
    V2.getRequestBody
      (construct "workflow" Fixtures.noSettings Fixtures.config)
      optionsWithHeaders = inr (body, o')
    /\ user body = "custom-user-123"
    /\ headers o' = Some h
    /\ h !! "user-id" = None
    /\ h !! "Custom-Header" = Some "custom-value".
Proof.
  assert (Hbody :
            V2.getRequestBody
              (construct "workflow" Fixtures.noSettings Fixtures.config)
              optionsWithHeaders
            = inr (buildBody
                     (construct "workflow" Fixtures.noSettings Fixtures.config)
                     "Hi" optionsWithHeaders,
                   cleanHeaders optionsWithHeaders))
    by (vm_compute; reflexivity).
  destruct (user_id_moves_from_headers_to_body _ _ _ _ Hbody)
    as (Huser & _ & _ & h & Hh & Hnone & Hother).
  do 2 eexists. exists h. split; [exact Hbody|]. split; [exact Huser|].
  split; [exact Hh|]. split; [exact Hnone|].
  assert (Hname : "Custom-Header" <> "user-id") by discriminate.
  exact (eq_trans (Hother "Custom-Header" Hname) eq_refl).
Defined.

Lemma joinTruthy_ext (f g : Part -> option string) (parts : list Part) :
  (forall part,
      (if Js.truthy_string (f part) then f part else None)
      = (if Js.truthy_string (g part) then g part else None)) ->
  joinTruthy (map f parts) = joinTruthy (map g parts).
Proof.
  intros Hfg. unfold joinTruthy. f_equal.
  induction parts as [|part parts IH]; [reflexivity|].
  cbn [map]. rewrite !omap_cons_case, Hfg, IH. reflexivity.
Qed.

Lemma V1_queryOf_V2 (c : Content) : V1.queryOf c = V2.queryOf c.
Proof.
  destruct c as [s|parts]; [reflexivity|].
  unfold V1.queryOf, V2.queryOf. apply joinTruthy_ext.
  intros [s|type [text|]]; try reflexivity.
  - destruct (String.eqb type "text"); reflexivity.
  - destruct (String.eqb type "text"); reflexivity.
Qed.

(** X11: both model versions extract the same query from a message's
    content: a text object without a [text] field, which the
    LanguageModelV1 code maps to [undefined] and the LanguageModelV2 code
    to the empty string, is dropped by the filter in either case, so the
    two queries are equal for every content. *)
Theorem both_versions_extract_the_same_query :
  forall c : Content, V1.queryOf c = V2.queryOf c.
Proof. exact V1_queryOf_V2. Qed.

Lemma joinTruthy_app xs ys :
  joinTruthy (xs ++ ys)
  = String.concat " "
      (omap (fun x => if Js.truthy_string x then x else None) xs
       ++ omap (fun x => if Js.truthy_string x then x else None) ys).
Proof. unfold joinTruthy. rewrite omap_app. reflexivity. Qed.

(** X12: a content part that is an empty string, an object of another type
    than "text" (a file, an image, a tool call) or a text object with no or
    empty text contributes nothing to the query, not even a separator:
    the query is the one of the content without that part. *)
Theorem blank_parts_leave_no_trace :
  forall (before after : list Part) (part : Part),
    isBlank part = true ->
    V2.queryOf (ContentArray (before ++ part :: after))
    = V2.queryOf (ContentArray (before ++ after)).
Proof.
  intros before after part Hblank. unfold V2.queryOf.
  rewrite !map_app, !joinTruthy_app. cbn [map]. rewrite omap_cons_case.
  destruct part as [s|type [text|]]; cbn [isBlank] in Hblank.
  - apply String.eqb_eq in Hblank as ->. reflexivity.
  - destruct (String.eqb type "text"); cbn in Hblank |- *.
    + apply negb_true_iff in Hblank. rewrite Hblank. reflexivity.
    + reflexivity.
  - destruct (String.eqb type "text"); reflexivity.
Qed.

Lemma blank_parts_leave_no_trace_witness :
  isBlank (PartObject "file" None) = true
  /\ V2.queryOf (ContentArray ([PartObject "text" (Some "Hello")]
                               ++ PartObject "file" None
                                  :: [PartString "world"]))
     = "Hello world".
Proof.
  split; [reflexivity|].
  rewrite (blank_parts_leave_no_trace
             [PartObject "text" (Some "Hello")] [PartString "world"]
             (PartObject "file" None) eq_refl).
  reflexivity.
Defined.

(** X13: the text parts of a content array are joined in order with single
    spaces, each text taken as it is: for non-empty texts the query is their
    concatenation with " " between neighbours. *)
Theorem text_parts_are_joined_by_spaces :
  forall texts : list string,
    Forall (fun t => t <> "") texts ->
    V2.queryOf (ContentArray (map (fun t => PartObject "text" (Some t)) texts))
    = String.concat " " texts.
Proof.
  intros texts Hne. unfold V2.queryOf, joinTruthy. f_equal.
  induction Hne as [|t texts Ht _ IH]; [reflexivity|].
  cbn [map]. rewrite omap_cons_case, IH.
  cbn. apply String.eqb_neq in Ht. rewrite Ht. reflexivity.
Qed.

Lemma text_parts_are_joined_by_spaces_witness :
  Forall (fun t => t <> "") ["Hello"; "big  world"]
  /\ V2.queryOf (ContentArray [PartObject "text" (Some "Hello");
                               PartObject "text" (Some "big  world")])
     = "Hello big  world".
Proof.
  assert (Hne : Forall (fun t => t <> "") ["Hello"; "big  world"])
    by (repeat constructor; discriminate).
  split; [exact Hne|].
  exact (text_parts_are_joined_by_spaces ["Hello"; "big  world"] Hne).
Defined.

(** * Further properties of the operations *)

Lemma sent_headers_lookup configured o name :
  combineHeaders configured (headers (cleanHeaders o)) !! name
  = sentHeaders configured o name.
Proof.
  unfold combineHeaders, cleanHeaders, sentHeaders. cbn [headers default].
  unfold id. rewrite lookup_union.
  destruct (String.eqb name "user-id") eqn:Hname.
  - apply String.eqb_eq in Hname as ->. rewrite lookup_delete_eq.
    destruct (configured !! "user-id"); reflexivity.
  - apply String.eqb_neq in Hname.
    rewrite lookup_delete_ne by congruence.
    destruct (default ∅ (headers o) !! name), (configured !! name);
      reflexivity.
Qed.

(** X14: the headers of the request an operation sends are the call's
    headers over the configured ones, with the caller's "user-id" left out:
    under a name other than "user-id" the call's header wins over the
    configured one, and under "user-id" only a configured header is sent.
    The transport is consulted with such headers only, so two transports
    that agree on them give the same outcome of [doGenerate] and of
    [doStream]. *)
Theorem transport_sees_merged_headers :
  forall (m : Model) (generated msgId : string) (o : CallOptions)
         (configured : gmap string string)
         (post post' : RequestBody -> gmap string string ->
                       HttpResponse (CompletionResponse MetadataUsage))
         (spost spost' : RequestBody -> gmap string string ->
                         HttpResponse (list ParseResult)),
    configHeaders (config m) = inr configured ->
    (forall body h,
        (forall name, h !! name = sentHeaders configured o name) ->
        post body h = post' body h /\ spost body h = spost' body h) ->
    V2.doGenerate m post generated o = V2.doGenerate m post' generated o
    /\ V2.doStream m spost msgId o = V2.doStream m spost' msgId o.
Proof.
  intros m generated msgId o configured post post' spost spost' Hconf Hagree.
  unfold V2.doGenerate, V2.doStream.
  destruct (V2_getRequestBody_cases m o) as [(e & _ & He)|(query & Hq)].
  - rewrite He. split; reflexivity.
  - rewrite Hq, Hconf. cbn zeta.
    split.
    + destruct (Hagree (buildBody m query o)
                  (combineHeaders configured (headers (cleanHeaders o)))
                  (sent_headers_lookup configured o)) as [-> _].
      reflexivity.
    + destruct (Hagree (V2.streamingBody (buildBody m query o))
                  (combineHeaders configured (headers (cleanHeaders o)))
                  (sent_headers_lookup configured o)) as [_ ->].
      reflexivity.
Qed.

Lemma transport_sees_merged_headers_witness :
  V2.doGenerate
    (construct "workflow" Fixtures.noSettings Fixtures.config)
    (expectingHeaders (Fixtures.response Fixtures.usage_5_7_12))
    "generated" optionsWithHeaders
  = V2.doGenerate
      (construct "workflow" Fixtures.noSettings Fixtures.config)
      (Fixtures.answering (HttpOk (Fixtures.response Fixtures.usage_5_7_12)))
      "generated" optionsWithHeaders
  /\ V2.doStream
       (construct "workflow" Fixtures.noSettings Fixtures.config)
       (expectingHeaders [Success Fixtures.workflow_started])
       "m" optionsWithHeaders
     = V2.doStream
         (construct "workflow" Fixtures.noSettings Fixtures.config)
         (Fixtures.answering (HttpOk [Success Fixtures.workflow_started]))
         "m" optionsWithHeaders.
Proof.
  apply (transport_sees_merged_headers
           (construct "workflow" Fixtures.noSettings Fixtures.config)
           "generated" "m" optionsWithHeaders
           {[ "Authorization" := "Bearer test" ]}).
  - reflexivity.
  - intros body h Hh. unfold expectingHeaders, Fixtures.answering.
    assert (Hexpected : h !! "Custom-Header" = Some "custom-value"
                        /\ h !! "user-id" = None).
    { split; [exact (eq_trans (Hh "Custom-Header") eq_refl)
             |exact (eq_trans (Hh "user-id") eq_refl)]. }
    rewrite !(bool_decide_eq_true_2 _ Hexpected). split; reflexivity.
Defined.

(** X15: the content of a blocking result holds at most one text entry and
    never an empty one: it is the workflow's [outputs.result] when that
    value is truthy (whatever its JSON type), and no entry at all when the
    response has no outputs, no [result] or a falsy one (empty string, 0,
    null, false). *)
Theorem blocking_content_is_the_truthy_result :
  forall m post generated o res,
    V2.doGenerate m post generated o = inr res ->
    (exists body h r,
        post body h = HttpOk r
        /\ V2.content res
           = match outputs (data r) ≫= (.!! "result") with
             | Some v => if Js.truthy (Some v) then [V2.TextContent v] else []
             | None => []
             end)
    /\ (forall t, In (V2.TextContent t) (V2.content res) ->
                  Js.truthy (Some t) = true).
Proof.
  intros m post generated o res H. unfold V2.doGenerate in H.
  destruct (V2.getRequestBody m o) as [e|[body o']]; [discriminate|].
  destruct (configHeaders (config m)) as [e|configured]; [discriminate|].
  destruct (post body _) as [st eb|r|e'] eqn:Hpost; try discriminate.
  injection H as <-. unfold V2.reduce, resultText. cbn [V2.content].
  split.
  - do 3 eexists. split; [exact Hpost|].
    destruct (outputs (data r) ≫= (.!! "result")) as [v|]; [|reflexivity].
    destruct (Js.truthy (Some v)) eqn:Hv; cbn [default]; [|reflexivity].
    unfold id. rewrite Hv. reflexivity.
  - intros t Hin.
    destruct (outputs (data r) ≫= (.!! "result")) as [v|];
      [|destruct Hin].
    destruct (Js.truthy (Some v)) eqn:Hv; cbn [default] in Hin;
      [|destruct Hin].
    unfold id in Hin. rewrite Hv in Hin.
    destruct Hin as [[= <-]|[]]. exact Hv.
Qed.

Lemma blocking_content_is_the_truthy_result_witness :
  exists res,
    V2.doGenerate
      (construct "workflow" Fixtures.noSettings Fixtures.config)
      (Fixtures.answering (HttpOk (Fixtures.response Fixtures.usage_5_7_12)))
      "generated" Fixtures.options = inr res
    /\ (forall t, In (V2.TextContent t) (V2.content res) ->
                  Js.truthy (Some t) = true).
Proof.
  eexists. split; [vm_compute; reflexivity|].
  exact (proj2 (blocking_content_is_the_truthy_result
                  (construct "workflow" Fixtures.noSettings Fixtures.config)
                  (Fixtures.answering
                     (HttpOk (Fixtures.response Fixtures.usage_5_7_12)))
                  "generated" Fixtures.options _ eq_refl)).
Defined.

(** X16: the response id of a blocking result is never empty when the
    generated id is not: it is the response's [workflow_run_id] when that is
    a non-empty string, and the generated id when the response has no
    [workflow_run_id] or an empty one. *)
Theorem blocking_response_id_is_never_empty :
  forall m post generated o res,
    generated <> "" ->
    V2.doGenerate m post generated o = inr res ->
    V2.response_id res <> ""
    /\ exists body h (r : CompletionResponse MetadataUsage),
        post body h = HttpOk r
        /\ (forall runId,
               workflow_run_id r = Some runId -> runId <> "" ->
               V2.response_id res = runId)
        /\ (workflow_run_id r = None \/ workflow_run_id r = Some "" ->
            V2.response_id res = generated)
        /\ (V2.response_id res = generated
            <-> workflow_run_id r = None
                \/ workflow_run_id r = Some ""
                \/ workflow_run_id r = Some generated).
Proof.
  intros m post generated o res Hgen H. unfold V2.doGenerate in H.
  destruct (V2.getRequestBody m o) as [e|[body o']]; [discriminate|].
  destruct (configHeaders (config m)) as [e|configured]; [discriminate|].
  destruct (post body _) as [st eb|r|e'] eqn:Hpost; try discriminate.
  injection H as <-. unfold V2.reduce, responseId. cbn [V2.response_id].
  assert (Hcase :
            forall answer,
              (answer <> "" /\
               (forall runId,
                   workflow_run_id r = Some runId -> runId <> "" ->
                   answer = runId) /\
               (workflow_run_id r = None \/ workflow_run_id r = Some "" ->
                answer = generated) /\
               (answer = generated
                <-> workflow_run_id r = None
                    \/ workflow_run_id r = Some ""
                    \/ workflow_run_id r = Some generated)) ->
              answer <> "" /\
              exists body h (r' : CompletionResponse MetadataUsage),
                post body h = HttpOk r'
                /\ (forall runId,
                       workflow_run_id r' = Some runId -> runId <> "" ->
                       answer = runId)
                /\ (workflow_run_id r' = None \/ workflow_run_id r' = Some ""
                    -> answer = generated)
                /\ (answer = generated
                    <-> workflow_run_id r' = None
                        \/ workflow_run_id r' = Some ""
                        \/ workflow_run_id r' = Some generated)).
  { intros answer (Hne & Hrun & Hgen' & Hiff). split; [exact Hne|].
    do 3 eexists. split; [exact Hpost|]. split; [exact Hrun|].
    split; [exact Hgen'|exact Hiff]. }
  apply Hcase. clear Hcase Hpost.
  destruct (workflow_run_id r) as [runId|]; cbn [Js.truthy_string default].
  2: { split; [exact Hgen|]. split; [intros ? [=]|]. split; [auto|].
       split; auto. }
  destruct (String.eqb runId "") eqn:Hid; cbn [negb].
  - apply String.eqb_eq in Hid as ->.
    split; [exact Hgen|]. split; [intros ? [= <-] Hne; contradiction|].
    split; [auto|]. split; auto.
  - apply String.eqb_neq in Hid. unfold id.
    split; [exact Hid|]. split; [intros ? [= <-] _; reflexivity|]. split.
    + intros [Hn|[= He]]; [discriminate|contradiction].
    + split.
      * intros ->. auto.
      * intros [Hn|[[= He]|[= He]]]; [discriminate|contradiction|exact He].
Qed.

Lemma blocking_response_id_is_never_empty_witness :
  "generated" <> ""
  /\ exists res,
      V2.doGenerate
        (construct "workflow" Fixtures.noSettings Fixtures.config)
        (Fixtures.answering (HttpOk responseWithEmptyRunId))
        "generated" Fixtures.options = inr res
      /\ V2.response_id res <> "".
Proof.
  assert (Hgen : "generated" <> "") by discriminate.
  split; [exact Hgen|]. eexists. split; [vm_compute; reflexivity|].
  exact (proj1 (blocking_response_id_is_never_empty
                  (construct "workflow" Fixtures.noSettings Fixtures.config)
                  (Fixtures.answering (HttpOk responseWithEmptyRunId))
                  "generated" Fixtures.options _ Hgen eq_refl)).
Defined.

(** * Further properties of construction and of the provider *)

(** X17: construction fixes the response mode once and for all: a
    constructed model's response mode is never undefined or empty, its
    inputs and API key are the given ones, the given settings are kept as
    they are exactly when they carry a non-empty response mode, and
    constructing again from a constructed model's settings changes
    nothing. *)
Theorem construction_settles_the_response_mode :
  forall (id id' : string) (s : DifyCompletionSettings) (c c' : ModelConfig),
    Js.truthy_string (responseMode (settings (construct id s c))) = true
    /\ inputs (settings (construct id s c)) = inputs s
    /\ apiKey (settings (construct id s c)) = apiKey s
    /\ (settings (construct id s c) = s
        <-> Js.truthy_string (responseMode s) = true)
    /\ settings (construct id' (settings (construct id s c)) c')
       = settings (construct id s c).
Proof.
  intros id id' s c c'. unfold construct. cbn [settings].
  destruct s as [key mode ins]. cbn [responseMode inputs apiKey].
  destruct mode as [mode|]; cbn [Js.truthy_string negb].
  - destruct (String.eqb mode "") eqn:Hmode; cbn [negb responseMode].
    + apply String.eqb_eq in Hmode as ->.
      repeat split; try reflexivity; discriminate.
    + rewrite ?Hmode. cbn [negb Js.truthy_string].
      rewrite ?Hmode. repeat split; reflexivity.
  - repeat split; try reflexivity; discriminate.
Qed.

(** X18: a model made by the provider sends the provider's own headers
    over the two it derives from the API key: when the key lookup yields a
    key, a header of the provider settings wins under its name, and
    "Authorization: Bearer <key>" and "Content-Type: application/json" are
    sent under theirs otherwise; when the lookup throws, every operation on
    a request that passes validation raises the lookup's exception without
    consulting the transport, and a request that fails validation raises
    its validation error first. *)
Theorem provider_headers_and_missing_key :
  forall (options : DifyProviderSettings) (env : option string)
         (id : string) (s : DifyCompletionSettings),
    let m := createCompletionModel options env id s in
    (forall key,
        loadApiKey (apiKey s) env = inr key ->
        exists h,
          configHeaders (config m) = inr h
          /\ forall name,
              h !! name
              = match default ∅ (ps_headers options) !! name with
                | Some v => Some v
                | None => providerDefaults key !! name
                end)
    /\ (forall e post spost generated msgId o,
           loadApiKey (apiKey s) env = inl e ->
           V2.doGenerate m post generated o
           = match V2.getRequestBody m o with
             | inl e' => inl e'
             | inr _ => inl e
             end
           /\ V2.doStream m spost msgId o
              = match V2.getRequestBody m o with
                | inl e' => inl e'
                | inr _ => inl e
                end).
Proof.
  intros options env id s m. split.
  - intros key Hkey. subst m. unfold createCompletionModel, construct.
    cbn [config configHeaders]. rewrite Hkey.
    eexists. split; [reflexivity|]. intros name.
    rewrite lookup_union. unfold providerDefaults.
    destruct (default ∅ (ps_headers options) !! name);
      destruct (_ !! name); reflexivity.
  - intros e post spost generated msgId o Hkey.
    assert (Hconf : configHeaders (config m) = inl e).
    { subst m. unfold createCompletionModel, construct.
      cbn [config configHeaders]. rewrite Hkey. reflexivity. }
    unfold V2.doGenerate, V2.doStream. rewrite Hconf.
    destruct (V2.getRequestBody m o) as [e'|[body o']]; split; reflexivity.
Qed.

Lemma provider_headers_and_missing_key_witness :
  loadApiKey (apiKey settingsWithInputs) None = inr "key"
  /\ exists h,
      configHeaders
        (config (createCompletionModel providerSettings None "workflow"
                   settingsWithInputs)) = inr h
      /\ h !! "Authorization" = Some "Custom auth"
      /\ h !! "Content-Type" = Some "application/json"
      /\ h !! "X-Trace" = Some "on".
Proof.
  split; [reflexivity|].
  destruct (proj1 (provider_headers_and_missing_key
                     providerSettings None "workflow" settingsWithInputs)
              "key" eq_refl) as (h & Hh & Hnames).
  exists h. split; [exact Hh|].
  split; [exact (eq_trans (Hnames "Authorization") eq_refl)|].
  split; [exact (eq_trans (Hnames "Content-Type") eq_refl)|].
  exact (eq_trans (Hnames "X-Trace") eq_refl).
Defined.

(** * Further properties of the raised errors *)





(** * Further properties of request validation *)

Lemma V2_hasAttachments_file parts :
  V2.hasAttachments (ContentArray parts) = true
  <-> exists text, In (PartObject "file" text) parts.
Proof.
  cbn [V2.hasAttachments]. rewrite existsb_exists. split.
  - intros ([s|type text] & Hin & Htype); [discriminate|].
    apply String.eqb_eq in Htype as ->. eauto.
  - intros (text & Hin). exists (PartObject "file" text). auto.
Qed.

(** X20: what validation says about a prompt is decided by its last
    message, the role first: the call fails with "The last message must be
    a user message" exactly when that message's role is not "user" (also
    when it carries files), and with "Dify provider does not currently
    support file attachments" exactly when it is a user message whose
    content array holds a part of type "file" anywhere, text parts beside
    it or not. *)
Theorem validation_follows_the_last_message :
  forall (m : Model) (o : CallOptions) (earlier : list Message)
         (r : string) (parts : list Part),
    let request :=
      withPrompt o
        (earlier ++ [{| role := r; content := ContentArray parts |}]) in
    (V2.getRequestBody m request
     = inl (APICallError "The last message must be a user message")
     <-> r <> "user")
    /\ (V2.getRequestBody m request
        = inl (APICallError
                 "Dify provider does not currently support file attachments")
        <-> r = "user" /\ exists text, In (PartObject "file" text) parts).
Proof.
  intros m o earlier r parts request. subst request.
  unfold V2.getRequestBody, withPrompt. cbn [prompt].
  rewrite last_snoc. cbn [role content].
  rewrite <- V2_hasAttachments_file.
  destruct (String.eqb r "user") eqn:Hrole; cbn [negb].
  - apply String.eqb_eq in Hrole.
    destruct (V2.hasAttachments (ContentArray parts)); split; split;
      try discriminate; try tauto; try congruence.
    all: intros [_ Hfalse]; discriminate Hfalse.
  - apply String.eqb_neq in Hrole. split; split;
      try discriminate; try tauto.
Qed.

(** X21: for a call that sets only [prompt] and whose last message carries
    neither an image nor a file part, both model versions raise the same
    error or build the same request body and hand on the same options. *)
Theorem both_versions_build_the_same_request :
  forall (m : Model) (ms : list Message) (h : option (gmap string string)),
    (forall latest,
        last ms = Some latest ->
        V1.hasAttachments (content latest) = false
        /\ V2.hasAttachments (content latest) = false) ->
    V1.getRequestBody m {| prompt := Some ms; messages := None; headers := h |}
    = V2.getRequestBody m
        {| prompt := Some ms; messages := None; headers := h |}.
Proof.
  intros m ms h Hplain. unfold V1.getRequestBody, V2.getRequestBody.
  cbn [prompt messages].
  destruct (last ms) as [latest|]; [|reflexivity].
  destruct (Hplain latest eq_refl) as [-> ->].
  rewrite V1_queryOf_V2. reflexivity.
Qed.

Lemma both_versions_build_the_same_request_witness :
  (forall latest,
      last Fixtures.userPrompt = Some latest ->
      V1.hasAttachments (content latest) = false
      /\ V2.hasAttachments (content latest) = false)
  /\ V1.getRequestBody
       (construct "workflow" Fixtures.noSettings Fixtures.config)
       {| prompt := Some Fixtures.userPrompt; messages := None;
          headers := None |}
     = V2.getRequestBody
         (construct "workflow" Fixtures.noSettings Fixtures.config)
         {| prompt := Some Fixtures.userPrompt; messages := None;
            headers := None |}.
Proof.
  assert (Hplain : forall latest,
             last Fixtures.userPrompt = Some latest ->
             V1.hasAttachments (content latest) = false
             /\ V2.hasAttachments (content latest) = false).
  { intros latest [= <-]. split; reflexivity. }
  split; [exact Hplain|].
  exact (both_versions_build_the_same_request
           (construct "workflow" Fixtures.noSettings Fixtures.config)
           Fixtures.userPrompt None Hplain).
Defined.
